(** * donutThreejs: the scene script, its event handlers and their properties

    A shallow embedding of [src/script.js]: a Three.js page that shows one 3D
    text mesh among one hundred floating torus ("donut") meshes, with a lil-gui
    panel for two colours and the text.

    - JavaScript numbers are IEEE 754 binary64 values: Rocq's primitive
      [float], with the same rounding on every operation.
    - JavaScript strings are sequences of UTF-16 code units.
    - Objects that the script creates with [new] and later mutates (geometries,
      materials, meshes) live in a store and are named by their index, so that
      sharing between [scene.children], [donutMeshes] and [textMesh] is kept.
    - The browser and the libraries call the script back: each callback is an
      [Event], and [dispatch] runs the handler the script registered for it. *)

From Stdlib Require Import ZArith NArith List Bool Lia Floats String Ascii.
From stdpp Require Import base option list.
Import ListNotations.

Set Warnings "-inexact-float".

Local Open Scope nat_scope.
Local Open Scope list_scope.

(** ** Numbers *)

Module Num.

Local Open Scope float_scope.

(** [Math.PI] *)
Definition PI : float := 0x1.921fb54442d18p+1.

(** [Math.abs] and the comparison [a > b] *)
Definition Math_abs (a : float) : float := abs a.
Definition gt (a b : float) : bool := b <? a.

(** [Math.min(a, b)]: NaN when either argument is NaN, and -0 is smaller
    than +0. *)
Definition Math_min (a b : float) : float :=
  if is_nan a || is_nan b then nan
  else if a <? b then a
  else if b <? a then b
  else if is_zero a && get_sign a then a
  else b.

End Num.

(** ** Three.js values *)

Record Vector3 := mkVector3 { vx : float; vy : float; vz : float }.

(** [Vector3.addScaledVector(v, s)]: [this.x += v.x * s] on every axis. *)
Definition addScaledVector (p v : Vector3) (s : float) : Vector3 :=
  {| vx := (vx p + vx v * s)%float;
     vy := (vy p + vy v * s)%float;
     vz := (vz p + vz v * s)%float |}.

(** A colour, as the hexadecimal number the script passes around. *)
Definition Color := N.

(** ** Strings *)

Definition JSString := list N.

(** A literal of the source, as code units. *)
Fixpoint js (s : string) : JSString :=
  match s with
  | EmptyString => []
  | String c s' => N_of_ascii c :: js s'
  end.

(** ECMAScript's WhiteSpace and LineTerminator code points, all of them in the
    basic plane: what [String.prototype.trim] strips. *)
Definition is_white_space (c : N) : bool :=
  ((c =? 0x0009) || (c =? 0x000A) || (c =? 0x000B) || (c =? 0x000C)
   || (c =? 0x000D) || (c =? 0x0020) || (c =? 0x00A0) || (c =? 0x1680)
   || ((0x2000 <=? c) && (c <=? 0x200A))
   || (c =? 0x2028) || (c =? 0x2029) || (c =? 0x202F) || (c =? 0x205F)
   || (c =? 0x3000) || (c =? 0xFEFF))%N.

Fixpoint trimStart (s : JSString) : JSString :=
  match s with
  | [] => []
  | c :: s' => if is_white_space c then trimStart s' else s
  end.

Definition trimEnd (s : JSString) : JSString := rev (trimStart (rev s)).

(** [s.trim()] *)
Definition trim (s : JSString) : JSString := trimEnd (trimStart s).

(** [s === ''] *)
Definition is_empty_string (s : JSString) : bool :=
  match s with [] => true | _ :: _ => false end.

(** ** Objects in the store *)

(** A reference into the store: the index of the object. *)
Abbreviation ref := nat (only parsing).

(** The font file, once parsed: opaque to the script. *)
Record Font := mkFont { font_id : N }.

Inductive ColorSpace := NoColorSpace | SRGBColorSpace.

(** What [textureLoader.load] hands back at once; the image itself arrives
    later, or never ([image_arrives = false]) when the file cannot be
    fetched or decoded. *)
Record Texture := mkTexture {
  image_arrives : bool;
  colorSpace : ColorSpace
}.

Inductive MaterialKind :=
| MeshMatcapMaterial (matcap : Texture)
| MeshBasicMaterial.

Record Material := mkMaterial {
  m_kind : MaterialKind;
  m_color : Color;
  m_disposed : bool
}.

(** The options the script passes to [TextGeometry]. *)
Record TextOptions := mkTextOptions {
  font : Font;
  size : float;
  depth : float;
  curveSegments : N;
  bevelEnabled : bool;
  bevelThickness : float;
  bevelSize : float;
  bevelOffset : float;
  bevelSegments : N
}.

Inductive Shape :=
| TextGeometry (text : JSString) (options : TextOptions)
| TorusGeometry (radius tube : float) (radialSegments tubularSegments : N).

(** A geometry: what it was built from, whether [center()] has moved it onto
    the origin, and whether [dispose()] has released its buffers. *)
Record Geometry := mkGeometry {
  g_shape : Shape;
  g_centered : bool;
  g_disposed : bool
}.

Record Mesh := mkMesh {
  geometry : ref;
  material : ref;
  position : Vector3;
  rotation : Vector3;
  scale : Vector3;
  userData_velocity : option Vector3
}.

(** What [scene.children] holds. *)
Inductive Object3D := CameraObject | MeshObject (r : ref).

Global Instance Object3D_eq_dec : EqDecision Object3D.
Proof. solve_decision. Defined.

(** ** The page around the script *)

Record Config := mkConfig {
  donutColor : Color;
  textColor : Color;
  textValue : JSString
}.

Record Window := mkWindow {
  innerWidth : float;
  innerHeight : float;
  devicePixelRatio : float
}.

Record Sizes := mkSizes { width : float; height : float }.

Inductive Folder := TextFolder | DonutsFolder.

Global Instance Folder_eq_dec : EqDecision Folder.
Proof. solve_decision. Defined.

Inductive LogEntry :=
| LogInitializing
| WarnNoMatcap
| LogFontLoaded
| ErrorFontLoading (error : N).

Inductive Alert := AlertFontFailed.
(** ** The state: the script's module variables, the store, and the page *)

Record State := mkState {
  scene_children : list Object3D;  (* scene.children *)
  loadedFont : option Font;  (* null until the font arrives *)
  textMesh : option ref;  (* null until the content is built *)
  donutMeshes : list ref;
  config : Config;
  matcapTexture : option Texture;
  sizes : Sizes;
  camera_aspect : float;  (* camera.aspect *)
  camera_projection : float;  (* the aspect of the last updateProjectionMatrix() *)
  renderer_size : float * float;  (* renderer.setSize *)
  renderer_pixelRatio : float;  (* renderer.setPixelRatio *)
  rendered_frames : nat;  (* calls of renderer.render *)
  geometries : list Geometry;  (* the store *)
  materials : list Material;
  meshes : list Mesh;
  gui_folders : list Folder;  (* gui.folders *)
  font_loading : bool;  (* fontLoader.load has not called back yet *)
  frame_requested : bool;  (* requestAnimationFrame(animate) is pending *)
  alerts : list Alert;  (* calls of alert, latest first *)
  console : list LogEntry;  (* latest first *)
  random_calls : nat;  (* calls of Math.random so far *)
  clock_calls : nat;  (* calls of clock.getDelta so far *)
  window : Window
}.

(** Assignments to one field. *)

Definition set_scene_children (v : list Object3D) (st : State) : State :=
  {| scene_children := v; loadedFont := loadedFont st;
     textMesh := textMesh st; donutMeshes := donutMeshes st;
     config := config st; matcapTexture := matcapTexture st;
     sizes := sizes st; camera_aspect := camera_aspect st;
     camera_projection := camera_projection st;
     renderer_size := renderer_size st;
     renderer_pixelRatio := renderer_pixelRatio st;
     rendered_frames := rendered_frames st; geometries := geometries st;
     materials := materials st; meshes := meshes st;
     gui_folders := gui_folders st; font_loading := font_loading st;
     frame_requested := frame_requested st; alerts := alerts st;
     console := console st; random_calls := random_calls st;
     clock_calls := clock_calls st; window := window st |}.

Definition set_loadedFont (v : option Font) (st : State) : State :=
  {| scene_children := scene_children st; loadedFont := v;
     textMesh := textMesh st; donutMeshes := donutMeshes st;
     config := config st; matcapTexture := matcapTexture st;
     sizes := sizes st; camera_aspect := camera_aspect st;
     camera_projection := camera_projection st;
     renderer_size := renderer_size st;
     renderer_pixelRatio := renderer_pixelRatio st;
     rendered_frames := rendered_frames st; geometries := geometries st;
     materials := materials st; meshes := meshes st;
     gui_folders := gui_folders st; font_loading := font_loading st;
     frame_requested := frame_requested st; alerts := alerts st;
     console := console st; random_calls := random_calls st;
     clock_calls := clock_calls st; window := window st |}.

Definition set_textMesh (v : option ref) (st : State) : State :=
  {| scene_children := scene_children st; loadedFont := loadedFont st;
     textMesh := v; donutMeshes := donutMeshes st; config := config st;
     matcapTexture := matcapTexture st; sizes := sizes st;
     camera_aspect := camera_aspect st;
     camera_projection := camera_projection st;
     renderer_size := renderer_size st;
     renderer_pixelRatio := renderer_pixelRatio st;
     rendered_frames := rendered_frames st; geometries := geometries st;
     materials := materials st; meshes := meshes st;
     gui_folders := gui_folders st; font_loading := font_loading st;
     frame_requested := frame_requested st; alerts := alerts st;
     console := console st; random_calls := random_calls st;
     clock_calls := clock_calls st; window := window st |}.

Definition set_donutMeshes (v : list ref) (st : State) : State :=
  {| scene_children := scene_children st; loadedFont := loadedFont st;
     textMesh := textMesh st; donutMeshes := v; config := config st;
     matcapTexture := matcapTexture st; sizes := sizes st;
     camera_aspect := camera_aspect st;
     camera_projection := camera_projection st;
     renderer_size := renderer_size st;
     renderer_pixelRatio := renderer_pixelRatio st;
     rendered_frames := rendered_frames st; geometries := geometries st;
     materials := materials st; meshes := meshes st;
     gui_folders := gui_folders st; font_loading := font_loading st;
     frame_requested := frame_requested st; alerts := alerts st;
     console := console st; random_calls := random_calls st;
     clock_calls := clock_calls st; window := window st |}.

Definition set_config (v : Config) (st : State) : State :=
  {| scene_children := scene_children st; loadedFont := loadedFont st;
     textMesh := textMesh st; donutMeshes := donutMeshes st; config := v;
     matcapTexture := matcapTexture st; sizes := sizes st;
     camera_aspect := camera_aspect st;
     camera_projection := camera_projection st;
     renderer_size := renderer_size st;
     renderer_pixelRatio := renderer_pixelRatio st;
     rendered_frames := rendered_frames st; geometries := geometries st;
     materials := materials st; meshes := meshes st;
     gui_folders := gui_folders st; font_loading := font_loading st;
     frame_requested := frame_requested st; alerts := alerts st;
     console := console st; random_calls := random_calls st;
     clock_calls := clock_calls st; window := window st |}.

Definition set_sizes (v : Sizes) (st : State) : State :=
  {| scene_children := scene_children st; loadedFont := loadedFont st;
     textMesh := textMesh st; donutMeshes := donutMeshes st;
     config := config st; matcapTexture := matcapTexture st; sizes := v;
     camera_aspect := camera_aspect st;
     camera_projection := camera_projection st;
     renderer_size := renderer_size st;
     renderer_pixelRatio := renderer_pixelRatio st;
     rendered_frames := rendered_frames st; geometries := geometries st;
     materials := materials st; meshes := meshes st;
     gui_folders := gui_folders st; font_loading := font_loading st;
     frame_requested := frame_requested st; alerts := alerts st;
     console := console st; random_calls := random_calls st;
     clock_calls := clock_calls st; window := window st |}.

Definition set_camera_aspect (v : float) (st : State) : State :=
  {| scene_children := scene_children st; loadedFont := loadedFont st;
     textMesh := textMesh st; donutMeshes := donutMeshes st;
     config := config st; matcapTexture := matcapTexture st;
     sizes := sizes st; camera_aspect := v;
     camera_projection := camera_projection st;
     renderer_size := renderer_size st;
     renderer_pixelRatio := renderer_pixelRatio st;
     rendered_frames := rendered_frames st; geometries := geometries st;
     materials := materials st; meshes := meshes st;
     gui_folders := gui_folders st; font_loading := font_loading st;
     frame_requested := frame_requested st; alerts := alerts st;
     console := console st; random_calls := random_calls st;
     clock_calls := clock_calls st; window := window st |}.

Definition set_camera_projection (v : float) (st : State) : State :=
  {| scene_children := scene_children st; loadedFont := loadedFont st;
     textMesh := textMesh st; donutMeshes := donutMeshes st;
     config := config st; matcapTexture := matcapTexture st;
     sizes := sizes st; camera_aspect := camera_aspect st;
     camera_projection := v; renderer_size := renderer_size st;
     renderer_pixelRatio := renderer_pixelRatio st;
     rendered_frames := rendered_frames st; geometries := geometries st;
     materials := materials st; meshes := meshes st;
     gui_folders := gui_folders st; font_loading := font_loading st;
     frame_requested := frame_requested st; alerts := alerts st;
     console := console st; random_calls := random_calls st;
     clock_calls := clock_calls st; window := window st |}.

Definition set_renderer_size (v : float * float) (st : State) : State :=
  {| scene_children := scene_children st; loadedFont := loadedFont st;
     textMesh := textMesh st; donutMeshes := donutMeshes st;
     config := config st; matcapTexture := matcapTexture st;
     sizes := sizes st; camera_aspect := camera_aspect st;
     camera_projection := camera_projection st; renderer_size := v;
     renderer_pixelRatio := renderer_pixelRatio st;
     rendered_frames := rendered_frames st; geometries := geometries st;
     materials := materials st; meshes := meshes st;
     gui_folders := gui_folders st; font_loading := font_loading st;
     frame_requested := frame_requested st; alerts := alerts st;
     console := console st; random_calls := random_calls st;
     clock_calls := clock_calls st; window := window st |}.

Definition set_renderer_pixelRatio (v : float) (st : State) : State :=
  {| scene_children := scene_children st; loadedFont := loadedFont st;
     textMesh := textMesh st; donutMeshes := donutMeshes st;
     config := config st; matcapTexture := matcapTexture st;
     sizes := sizes st; camera_aspect := camera_aspect st;
     camera_projection := camera_projection st;
     renderer_size := renderer_size st; renderer_pixelRatio := v;
     rendered_frames := rendered_frames st; geometries := geometries st;
     materials := materials st; meshes := meshes st;
     gui_folders := gui_folders st; font_loading := font_loading st;
     frame_requested := frame_requested st; alerts := alerts st;
     console := console st; random_calls := random_calls st;
     clock_calls := clock_calls st; window := window st |}.

Definition set_rendered_frames (v : nat) (st : State) : State :=
  {| scene_children := scene_children st; loadedFont := loadedFont st;
     textMesh := textMesh st; donutMeshes := donutMeshes st;
     config := config st; matcapTexture := matcapTexture st;
     sizes := sizes st; camera_aspect := camera_aspect st;
     camera_projection := camera_projection st;
     renderer_size := renderer_size st;
     renderer_pixelRatio := renderer_pixelRatio st; rendered_frames := v;
     geometries := geometries st; materials := materials st;
     meshes := meshes st; gui_folders := gui_folders st;
     font_loading := font_loading st; frame_requested := frame_requested st;
     alerts := alerts st; console := console st;
     random_calls := random_calls st; clock_calls := clock_calls st;
     window := window st |}.

Definition set_geometries (v : list Geometry) (st : State) : State :=
  {| scene_children := scene_children st; loadedFont := loadedFont st;
     textMesh := textMesh st; donutMeshes := donutMeshes st;
     config := config st; matcapTexture := matcapTexture st;
     sizes := sizes st; camera_aspect := camera_aspect st;
     camera_projection := camera_projection st;
     renderer_size := renderer_size st;
     renderer_pixelRatio := renderer_pixelRatio st;
     rendered_frames := rendered_frames st; geometries := v;
     materials := materials st; meshes := meshes st;
     gui_folders := gui_folders st; font_loading := font_loading st;
     frame_requested := frame_requested st; alerts := alerts st;
     console := console st; random_calls := random_calls st;
     clock_calls := clock_calls st; window := window st |}.

Definition set_materials (v : list Material) (st : State) : State :=
  {| scene_children := scene_children st; loadedFont := loadedFont st;
     textMesh := textMesh st; donutMeshes := donutMeshes st;
     config := config st; matcapTexture := matcapTexture st;
     sizes := sizes st; camera_aspect := camera_aspect st;
     camera_projection := camera_projection st;
     renderer_size := renderer_size st;
     renderer_pixelRatio := renderer_pixelRatio st;
     rendered_frames := rendered_frames st; geometries := geometries st;
     materials := v; meshes := meshes st; gui_folders := gui_folders st;
     font_loading := font_loading st; frame_requested := frame_requested st;
     alerts := alerts st; console := console st;
     random_calls := random_calls st; clock_calls := clock_calls st;
     window := window st |}.

Definition set_meshes (v : list Mesh) (st : State) : State :=
  {| scene_children := scene_children st; loadedFont := loadedFont st;
     textMesh := textMesh st; donutMeshes := donutMeshes st;
     config := config st; matcapTexture := matcapTexture st;
     sizes := sizes st; camera_aspect := camera_aspect st;
     camera_projection := camera_projection st;
     renderer_size := renderer_size st;
     renderer_pixelRatio := renderer_pixelRatio st;
     rendered_frames := rendered_frames st; geometries := geometries st;
     materials := materials st; meshes := v; gui_folders := gui_folders st;
     font_loading := font_loading st; frame_requested := frame_requested st;
     alerts := alerts st; console := console st;
     random_calls := random_calls st; clock_calls := clock_calls st;
     window := window st |}.

Definition set_gui_folders (v : list Folder) (st : State) : State :=
  {| scene_children := scene_children st; loadedFont := loadedFont st;
     textMesh := textMesh st; donutMeshes := donutMeshes st;
     config := config st; matcapTexture := matcapTexture st;
     sizes := sizes st; camera_aspect := camera_aspect st;
     camera_projection := camera_projection st;
     renderer_size := renderer_size st;
     renderer_pixelRatio := renderer_pixelRatio st;
     rendered_frames := rendered_frames st; geometries := geometries st;
     materials := materials st; meshes := meshes st; gui_folders := v;
     font_loading := font_loading st; frame_requested := frame_requested st;
     alerts := alerts st; console := console st;
     random_calls := random_calls st; clock_calls := clock_calls st;
     window := window st |}.

Definition set_font_loading (v : bool) (st : State) : State :=
  {| scene_children := scene_children st; loadedFont := loadedFont st;
     textMesh := textMesh st; donutMeshes := donutMeshes st;
     config := config st; matcapTexture := matcapTexture st;
     sizes := sizes st; camera_aspect := camera_aspect st;
     camera_projection := camera_projection st;
     renderer_size := renderer_size st;
     renderer_pixelRatio := renderer_pixelRatio st;
     rendered_frames := rendered_frames st; geometries := geometries st;
     materials := materials st; meshes := meshes st;
     gui_folders := gui_folders st; font_loading := v;
     frame_requested := frame_requested st; alerts := alerts st;
     console := console st; random_calls := random_calls st;
     clock_calls := clock_calls st; window := window st |}.

Definition set_frame_requested (v : bool) (st : State) : State :=
  {| scene_children := scene_children st; loadedFont := loadedFont st;
     textMesh := textMesh st; donutMeshes := donutMeshes st;
     config := config st; matcapTexture := matcapTexture st;
     sizes := sizes st; camera_aspect := camera_aspect st;
     camera_projection := camera_projection st;
     renderer_size := renderer_size st;
     renderer_pixelRatio := renderer_pixelRatio st;
     rendered_frames := rendered_frames st; geometries := geometries st;
     materials := materials st; meshes := meshes st;
     gui_folders := gui_folders st; font_loading := font_loading st;
     frame_requested := v; alerts := alerts st; console := console st;
     random_calls := random_calls st; clock_calls := clock_calls st;
     window := window st |}.

Definition set_alerts (v : list Alert) (st : State) : State :=
  {| scene_children := scene_children st; loadedFont := loadedFont st;
     textMesh := textMesh st; donutMeshes := donutMeshes st;
     config := config st; matcapTexture := matcapTexture st;
     sizes := sizes st; camera_aspect := camera_aspect st;
     camera_projection := camera_projection st;
     renderer_size := renderer_size st;
     renderer_pixelRatio := renderer_pixelRatio st;
     rendered_frames := rendered_frames st; geometries := geometries st;
     materials := materials st; meshes := meshes st;
     gui_folders := gui_folders st; font_loading := font_loading st;
     frame_requested := frame_requested st; alerts := v;
     console := console st; random_calls := random_calls st;
     clock_calls := clock_calls st; window := window st |}.

Definition set_console (v : list LogEntry) (st : State) : State :=
  {| scene_children := scene_children st; loadedFont := loadedFont st;
     textMesh := textMesh st; donutMeshes := donutMeshes st;
     config := config st; matcapTexture := matcapTexture st;
     sizes := sizes st; camera_aspect := camera_aspect st;
     camera_projection := camera_projection st;
     renderer_size := renderer_size st;
     renderer_pixelRatio := renderer_pixelRatio st;
     rendered_frames := rendered_frames st; geometries := geometries st;
     materials := materials st; meshes := meshes st;
     gui_folders := gui_folders st; font_loading := font_loading st;
     frame_requested := frame_requested st; alerts := alerts st;
     console := v; random_calls := random_calls st;
     clock_calls := clock_calls st; window := window st |}.

Definition set_random_calls (v : nat) (st : State) : State :=
  {| scene_children := scene_children st; loadedFont := loadedFont st;
     textMesh := textMesh st; donutMeshes := donutMeshes st;
     config := config st; matcapTexture := matcapTexture st;
     sizes := sizes st; camera_aspect := camera_aspect st;
     camera_projection := camera_projection st;
     renderer_size := renderer_size st;
     renderer_pixelRatio := renderer_pixelRatio st;
     rendered_frames := rendered_frames st; geometries := geometries st;
     materials := materials st; meshes := meshes st;
     gui_folders := gui_folders st; font_loading := font_loading st;
     frame_requested := frame_requested st; alerts := alerts st;
     console := console st; random_calls := v; clock_calls := clock_calls st;
     window := window st |}.

Definition set_clock_calls (v : nat) (st : State) : State :=
  {| scene_children := scene_children st; loadedFont := loadedFont st;
     textMesh := textMesh st; donutMeshes := donutMeshes st;
     config := config st; matcapTexture := matcapTexture st;
     sizes := sizes st; camera_aspect := camera_aspect st;
     camera_projection := camera_projection st;
     renderer_size := renderer_size st;
     renderer_pixelRatio := renderer_pixelRatio st;
     rendered_frames := rendered_frames st; geometries := geometries st;
     materials := materials st; meshes := meshes st;
     gui_folders := gui_folders st; font_loading := font_loading st;
     frame_requested := frame_requested st; alerts := alerts st;
     console := console st; random_calls := random_calls st;
     clock_calls := v; window := window st |}.

Definition set_window (v : Window) (st : State) : State :=
  {| scene_children := scene_children st; loadedFont := loadedFont st;
     textMesh := textMesh st; donutMeshes := donutMeshes st;
     config := config st; matcapTexture := matcapTexture st;
     sizes := sizes st; camera_aspect := camera_aspect st;
     camera_projection := camera_projection st;
     renderer_size := renderer_size st;
     renderer_pixelRatio := renderer_pixelRatio st;
     rendered_frames := rendered_frames st; geometries := geometries st;
     materials := materials st; meshes := meshes st;
     gui_folders := gui_folders st; font_loading := font_loading st;
     frame_requested := frame_requested st; alerts := alerts st;
     console := console st; random_calls := random_calls st;
     clock_calls := clock_calls st; window := v |}.

(** ** Library calls on the store and the scene *)

(** [new THREE.Mesh(geometry, material)]: at the origin, unrotated, unit
    scale, empty [userData]. *)
Definition Mesh_new (g m : ref) : Mesh :=
  {| geometry := g; material := m;
     position := mkVector3 0 0 0;
     rotation := mkVector3 0 0 0;
     scale := mkVector3 1 1 1;
     userData_velocity := None |}.

Definition alloc_geometry (g : Geometry) (st : State) : ref * State :=
  (length (geometries st), set_geometries (geometries st ++ [g]) st).

Definition alloc_material (m : Material) (st : State) : ref * State :=
  (length (materials st), set_materials (materials st ++ [m]) st).

Definition alloc_mesh (m : Mesh) (st : State) : ref * State :=
  (length (meshes st), set_meshes (meshes st ++ [m]) st).

(** [geometry.center()] and [geometry.dispose()] *)
Definition centered (o : Geometry) : Geometry :=
  mkGeometry (g_shape o) true (g_disposed o).

Definition released (o : Geometry) : Geometry :=
  mkGeometry (g_shape o) (g_centered o) true.

Definition center (g : ref) (st : State) : State :=
  set_geometries (alter centered g (geometries st)) st.

Definition dispose (g : ref) (st : State) : State :=
  set_geometries (alter released g (geometries st)) st.

(** [material.color.set(c)] *)
Definition recolor (c : Color) (o : Material) : Material :=
  mkMaterial (m_kind o) c (m_disposed o).

Definition color_set (m : ref) (c : Color) (st : State) : State :=
  set_materials (alter (recolor c) m (materials st)) st.

(** [mesh.geometry = g] *)
Definition with_geometry (g : ref) (m : Mesh) : Mesh :=
  mkMesh g (material m) (position m) (rotation m) (scale m) (userData_velocity m).

(** [Array.prototype.indexOf] followed by [splice(index, 1)]: the first
    occurrence goes, if there is one. *)
Fixpoint remove_first (o : Object3D) (l : list Object3D) : list Object3D :=
  match l with
  | [] => []
  | o' :: l' => if decide (o = o') then l' else o' :: remove_first o l'
  end.

(** [scene.remove(o)] *)
Definition scene_remove (o : Object3D) (st : State) : State :=
  set_scene_children (remove_first o (scene_children st)) st.

(** [scene.add(o)]: an object is detached from its parent before it is
    appended. *)
Definition scene_add (o : Object3D) (st : State) : State :=
  set_scene_children (remove_first o (scene_children st) ++ [o]) st.

Definition console_log (e : LogEntry) (st : State) : State :=
  set_console (e :: console st) st.

Definition alert (a : Alert) (st : State) : State :=
  set_alerts (a :: alerts st) st.

(** [gui.folders.forEach(folder => folder.destroy())]. [forEach] visits the
    indices below the length the array had when the loop started and skips an
    index the array no longer has; [folder.destroy()] splices the visited
    folder out of [gui.folders] while the loop runs, so the folder behind it
    moves to the visited index and the loop passes it over. *)
Definition destroy_visited (folders : list Folder) (k : nat) : list Folder :=
  match folders !! k with
  | Some _ => delete k folders
  | None => folders
  end.

Definition forEach_destroy (folders : list Folder) : list Folder :=
  fold_left destroy_visited (seq 0 (length folders)) folders.

(** ** The script *)

(** What [textureLoader.load(url)] does when it is called: it throws, or it
    returns the texture object whose image is fetched in the background. *)
Inductive TextureLoad := LoadThrows | LoadReturns (t : Texture).

Inductive Event :=
| FontLoaded (f : Font)          (* fontLoader.load: the success callback *)
| FontError (error : N)          (* fontLoader.load: the error callback *)
| Resize (w : Window)            (* the window changed, 'resize' fires *)
| AnimationFrame                 (* the frame callback fires *)
| TextColorPicked (c : Color)    (* Text / Color *)
| TextValueEdited (s : JSString) (* Text / Content *)
| DonutColorPicked (c : Color).  (* Donuts / Global Color *)

Section Script.

(** The results of the n-th call of [Math.random()] and of
    [clock.getDelta()]. *)
Variable random : nat -> float.
Variable getDelta : nat -> float.

Definition Math_random (st : State) : float * State :=
  (random (random_calls st), set_random_calls (S (random_calls st)) st).

Definition clock_getDelta (st : State) : float * State :=
  (getDelta (clock_calls st), set_clock_calls (S (clock_calls st)) st).

Definition placeholder : JSString := js "...".

(** The options object of [new TextGeometry(geometryText, {...})]. *)
Definition text_options (font : Font) : TextOptions :=
  {| font := font;
     size := 0.5;
     depth := 0.2;
     curveSegments := 5;
     bevelEnabled := true;
     bevelThickness := 0.03;
     bevelSize := 0.02;
     bevelOffset := 0;
     bevelSegments := 3 |}.

Definition createTextGeometry (text : JSString) (font : Font) (st : State)
  : ref * State :=
  let geometryText :=
    if is_empty_string (trim text) then placeholder else text in
  let '(geometry, st) :=
    alloc_geometry
      (mkGeometry (TextGeometry geometryText (text_options font)) false false)
      st in
  let st := center geometry st in
  (geometry, st).

(** [matcapTexture ? new MeshMatcapMaterial({matcap, color})
                   : new MeshBasicMaterial({color})] *)
Definition new_material (c : Color) (st : State) : ref * State :=
  alloc_material
    match matcapTexture st with
    | Some t => mkMaterial (MeshMatcapMaterial t) c false
    | None => mkMaterial MeshBasicMaterial c false
    end st.

Definition donutColors : list Color :=
  [0xff0000; 0xffa500; 0xffff00; 0x00ff00; 0x00ffff; 0x0000ff; 0x8a2be2]%N.

Definition donut_count : nat := 100.

(** The body of [for (let i = 0; i < 100; i++)]. *)
Definition create_donut (donutGeometry : ref) (st : State) (i : nat) : State :=
  let '(donutMaterial, st) :=
    new_material (nth (i mod length donutColors) donutColors 0%N) st in
  let '(px, st) := Math_random st in
  let '(py, st) := Math_random st in
  let '(pz, st) := Math_random st in
  let '(rx, st) := Math_random st in
  let '(ry, st) := Math_random st in
  let '(s, st) := Math_random st in
  let scale := (s * 0.7 + 0.3)%float in
  let '(wx, st) := Math_random st in
  let '(wy, st) := Math_random st in
  let '(wz, st) := Math_random st in
  let '(donut, st) :=
    alloc_mesh
      {| geometry := donutGeometry; material := donutMaterial;
         position := mkVector3 ((px - 0.5) * 15) ((py - 0.5) * 15)
                               ((pz - 0.5) * 15);
         rotation := mkVector3 (rx * Num.PI) (ry * Num.PI) 0;
         scale := mkVector3 scale scale scale;
         userData_velocity :=
           Some (mkVector3 ((wx - 0.5) * 0.02) ((wy - 0.5) * 0.02)
                           ((wz - 0.5) * 0.02)) |} st in
  let st := set_donutMeshes (donutMeshes st ++ [donut]) st in
  scene_add (MeshObject donut) st.

Definition setupSceneContent (font : Font) (st : State) : State :=
  let st := set_loadedFont (Some font) st in
  (* the text object *)
  let '(textMaterial, st) := new_material (textColor (config st)) st in
  let '(initialTextGeometry, st) :=
    createTextGeometry (textValue (config st)) font st in
  let '(text, st) := alloc_mesh (Mesh_new initialTextGeometry textMaterial) st in
  let st := set_textMesh (Some text) st in
  let st := scene_add (MeshObject text) st in
  (* the donuts *)
  let '(donutGeometry, st) :=
    alloc_geometry (mkGeometry (TorusGeometry 0.3 0.2 16 32) false false) st in
  let st :=
    fold_left (fun st donut => scene_remove (MeshObject donut) st)
              (donutMeshes st) st in
  let st := set_donutMeshes [] st in
  let st := fold_left (create_donut donutGeometry) (seq 0 donut_count) st in
  (* the panel: the loop that destroys the old folders, two new ones *)
  let st := set_gui_folders (forEach_destroy (gui_folders st)) st in
  let st := set_gui_folders (gui_folders st ++ [TextFolder]) st in
  set_gui_folders (gui_folders st ++ [DonutsFolder]) st.

(** The three [onChange] handlers of the panel. *)
Definition onTextColor (newColor : Color) (st : State) : State :=
  match textMesh st with
  | Some text =>
      match meshes st !! text with
      | Some m => color_set (material m) newColor st
      | None => st
      end
  | None => st
  end.

Definition onTextValue (newText : JSString) (st : State) : State :=
  match textMesh st, loadedFont st with
  | Some text, Some font =>
      match meshes st !! text with
      | Some m =>
          let st := dispose (geometry m) st in
          let '(g, st) := createTextGeometry newText font st in
          set_meshes (alter (with_geometry g) text (meshes st)) st
      | None => st
      end
  | _, _ => st
  end.

Definition onDonutColor (newColor : Color) (st : State) : State :=
  fold_left
    (fun st donut =>
       match meshes st !! donut with
       | Some m => color_set (material m) newColor st
       | None => st
       end)
    (donutMeshes st) st.

Definition handleResize (st : State) : State :=
  let st :=
    set_sizes (mkSizes (innerWidth (window st)) (innerHeight (window st))) st in
  let st := set_camera_aspect (width (sizes st) / height (sizes st))%float st in
  let st := set_camera_projection (camera_aspect st) st in
  let st := set_renderer_size (width (sizes st), height (sizes st)) st in
  set_renderer_pixelRatio (Num.Math_min (devicePixelRatio (window st)) 2) st.

Definition boundary : float := 10%float.

(** One axis of the boundary check:
    [if (Math.abs(p) > boundary) v *= -1]. *)
Definition bounce (p v : float) : float :=
  if Num.gt (Num.Math_abs p) boundary then (v * -1)%float else v.

(** The body of [donutMeshes.forEach] in [animate]. The rotation is advanced
    first; a mesh without [userData.velocity] then raises a TypeError
    ([false]). *)
Definition animate_donut (deltaTime : float) (m : Mesh) : bool * Mesh :=
  let rot :=
    mkVector3 (vx (rotation m) + deltaTime * 0.5)%float
              (vy (rotation m) + deltaTime * 0.5)%float
              (vz (rotation m)) in
  match userData_velocity m with
  | None =>
      (false, mkMesh (geometry m) (material m) (position m) rot (scale m) None)
  | Some v =>
      let pos := addScaledVector (position m) v (deltaTime * 60)%float in
      let v' := mkVector3 (bounce (vx pos) (vx v)) (bounce (vy pos) (vy v))
                          (bounce (vz pos) (vz v)) in
      (true, mkMesh (geometry m) (material m) pos rot (scale m) (Some v'))
  end.

(** [donutMeshes.forEach(...)] over the store; it stops at the first
    exception. *)
Fixpoint animate_donuts (deltaTime : float) (donuts : list ref)
         (ms : list Mesh) : bool * list Mesh :=
  match donuts with
  | [] => (true, ms)
  | donut :: rest =>
      match ms !! donut with
      | None => (false, ms)
      | Some m =>
          let '(ok, m') := animate_donut deltaTime m in
          if ok then animate_donuts deltaTime rest (<[donut := m']> ms)
          else (false, <[donut := m']> ms)
      end
  end.

(** One run of [animate]: when the loop over the donuts completes, the
    scene is drawn and the next frame is requested. [controls.update()] moves
    the camera inside the orbit controls and touches nothing of this state. *)
Definition animate (st : State) : State :=
  let '(deltaTime, st) := clock_getDelta st in
  let '(ok, ms) := animate_donuts deltaTime (donutMeshes st) (meshes st) in
  let st := set_meshes ms st in
  if ok then
    let st := set_rendered_frames (S (rendered_frames st)) st in
    set_frame_requested true st
  else st.

(** The statements of the module from top to bottom, before the call of
    [init()]: the scene with its camera, the texture load inside
    [try]/[catch], the sizes, the camera and the renderer. *)
Definition module_top (w : Window) (load : TextureLoad) : State :=
  let aspect := (innerWidth w / innerHeight w)%float in
  {| scene_children := [CameraObject];
     loadedFont := None;
     textMesh := None;
     donutMeshes := [];
     config := mkConfig 0xff0000%N 0xffffff%N (js "Hello :)");
     matcapTexture :=
       match load with
       | LoadThrows => None
       | LoadReturns t => Some (mkTexture (image_arrives t) SRGBColorSpace)
       end;
     sizes := mkSizes (innerWidth w) (innerHeight w);
     camera_aspect := aspect;
     camera_projection := aspect;
     renderer_size := (innerWidth w, innerHeight w);
     renderer_pixelRatio := Num.Math_min (devicePixelRatio w) 2;
     rendered_frames := 0;
     geometries := [];
     materials := [];
     meshes := [];
     gui_folders := [];
     font_loading := false;
     frame_requested := false;
     alerts := [];
     console :=
       match load with LoadThrows => [WarnNoMatcap] | LoadReturns _ => [] end;
     random_calls := 0;
     clock_calls := 0;
     window := w |}.

(** [init()]: it logs, registers [handleResize] for 'resize' (from here on
    [dispatch] runs it on every [Resize]) and starts the font load, whose two
    callbacks are the cases [FontLoaded] and [FontError] of [dispatch]. *)
Definition init (st : State) : State :=
  let st := console_log LogInitializing st in
  set_font_loading true st.

(** The page once the module has run. *)
Definition boot (w : Window) (load : TextureLoad) : State :=
  init (module_top w load).

Definition set_textColor (c : Color) (st : State) : State :=
  set_config (mkConfig (donutColor (config st)) c (textValue (config st))) st.

Definition set_textValue (s : JSString) (st : State) : State :=
  set_config (mkConfig (donutColor (config st)) (textColor (config st)) s) st.

Definition set_donutColor (c : Color) (st : State) : State :=
  set_config (mkConfig c (textColor (config st)) (textValue (config st))) st.

(** The handler the script registered for an event; an event nobody
    listens for leaves the state as it is. A panel control writes the
    bound [config] field before it calls [onChange]. *)
Definition dispatch (st : State) (ev : Event) : State :=
  match ev with
  | FontLoaded font =>
      if font_loading st then
        let st := set_font_loading false st in
        let st := console_log LogFontLoaded st in
        let st := setupSceneContent font st in
        let st := handleResize st in
        animate st
      else st
  | FontError error =>
      if font_loading st then
        let st := set_font_loading false st in
        let st := console_log (ErrorFontLoading error) st in
        alert AlertFontFailed st
      else st
  | Resize w => handleResize (set_window w st)
  | AnimationFrame =>
      if frame_requested st then animate (set_frame_requested false st)
      else st
  | TextColorPicked c =>
      if decide (TextFolder ∈ gui_folders st)
      then onTextColor c (set_textColor c st) else st
  | TextValueEdited s =>
      if decide (TextFolder ∈ gui_folders st)
      then onTextValue s (set_textValue s st) else st
  | DonutColorPicked c =>
      if decide (DonutsFolder ∈ gui_folders st)
      then onDonutColor c (set_donutColor c st) else st
  end.

Definition run (st : State) (evs : list Event) : State :=
  fold_left dispatch evs st.

End Script.

(** * The vocabulary of the properties *)

(** ** Summaries of the scene builder *)

(** The variant of material the script picks: matcap with the texture in
    hand, flat colour without. *)
Definition material_variant (tex : option Texture) : MaterialKind :=
  match tex with
  | Some t => MeshMatcapMaterial t
  | None => MeshBasicMaterial
  end.

Definition mesh_object_below (n : nat) (o : Object3D) : Prop :=
  match o with CameraObject => True | MeshObject r => r < n end.

(** [donutMeshes.forEach(donut => scene.remove(donut))] on the children. *)
Definition remove_all (donuts : list ref) (children : list Object3D)
  : list Object3D :=
  fold_left (fun cs d => remove_first (MeshObject d) cs) donuts children.

Definition torus : Geometry :=
  mkGeometry (TorusGeometry 0.3 0.2 16 32) false false.

(** The text that reaches [TextGeometry]. *)
Definition geometryText (text : JSString) : JSString :=
  if is_empty_string (trim text) then placeholder else text.

Definition text_geometry (text : JSString) (font : Font) : Geometry :=
  mkGeometry (TextGeometry (geometryText text) (text_options font)) true false.

(** Everything of a state that the loop over the donuts leaves alone. *)
Definition outside_donut_loop (st : State) :=
  (loadedFont st, textMesh st, config st, matcapTexture st, sizes st,
   camera_aspect st, camera_projection st, renderer_size st,
   renderer_pixelRatio st, rendered_frames st, geometries st, gui_folders st,
   font_loading st, frame_requested st, alerts st, console st, clock_calls st,
   window st).

(** What one round of the loop leaves behind. *)
Record donut_created (donutGeometry : ref) (st st' : State) : Prop := {
  dc_outside : outside_donut_loop st' = outside_donut_loop st;
  dc_random : random_calls st' = 9 + random_calls st;
  dc_donuts : donutMeshes st' = donutMeshes st ++ [length (meshes st)];
  dc_scene :
    scene_children st' =
    remove_first (MeshObject (length (meshes st))) (scene_children st)
      ++ [MeshObject (length (meshes st))];
  dc_materials :
    exists c,
      materials st' =
      materials st ++ [mkMaterial (material_variant (matcapTexture st)) c false];
  dc_meshes :
    exists p r s v,
      meshes st' =
      meshes st ++ [mkMesh donutGeometry (length (materials st)) p r s (Some v)]
}.

(** The loop after [n] rounds, started in [st0]. *)
Record donuts_created (donutGeometry : ref) (n : nat) (st0 st : State) : Prop := {
  ds_outside : outside_donut_loop st = outside_donut_loop st0;
  ds_random : random_calls st = 9 * n + random_calls st0;
  ds_donuts : donutMeshes st = donutMeshes st0 ++ seq (length (meshes st0)) n;
  ds_scene :
    Forall (mesh_object_below (length (meshes st0))) (scene_children st0) ->
    scene_children st =
    scene_children st0 ++ map MeshObject (seq (length (meshes st0)) n);
  ds_materials :
    exists new,
      materials st = materials st0 ++ new /\ length new = n /\
      Forall (fun m => m_kind m = material_variant (matcapTexture st0)
                       /\ m_disposed m = false) new;
  ds_meshes :
    exists new,
      meshes st = meshes st0 ++ new /\ length new = n /\
      forall j m, new !! j = Some m ->
        geometry m = donutGeometry /\
        material m = length (materials st0) + j /\
        is_Some (userData_velocity m)
}.

(** Every second element of a list: those at the positions 1, 3, 5, ...
    (counted from 0). *)
Fixpoint every_second {A} (l : list A) : list A :=
  match l with
  | _ :: y :: l' => y :: every_second l'
  | _ => []
  end.

(** Everything of a state that [setupSceneContent] leaves alone. *)
Definition outside_builder (st : State) :=
  (config st, matcapTexture st, sizes st, camera_aspect st,
   camera_projection st, renderer_size st, renderer_pixelRatio st,
   rendered_frames st, font_loading st, frame_requested st, alerts st,
   console st, clock_calls st, window st).

Record content_built (font : Font) (st st' : State) : Prop := {
  cb_outside : outside_builder st' = outside_builder st;
  cb_font : loadedFont st' = Some font;
  cb_text : textMesh st' = Some (length (meshes st));
  cb_donuts : donutMeshes st' = seq (S (length (meshes st))) donut_count;
  cb_gui :
    gui_folders st' =
    every_second (gui_folders st) ++ [TextFolder; DonutsFolder];
  cb_geometries :
    geometries st' =
    geometries st ++ [text_geometry (textValue (config st)) font; torus];
  cb_materials :
    exists new,
      materials st' =
      materials st
        ++ mkMaterial (material_variant (matcapTexture st))
                      (textColor (config st)) false :: new /\
      length new = donut_count /\
      Forall (fun m => m_kind m = material_variant (matcapTexture st)
                       /\ m_disposed m = false) new;
  cb_meshes :
    exists new,
      meshes st' =
      meshes st
        ++ Mesh_new (length (geometries st)) (length (materials st)) :: new /\
      length new = donut_count /\
      forall j m, new !! j = Some m ->
        geometry m = S (length (geometries st)) /\
        material m = S (length (materials st)) + j /\
        is_Some (userData_velocity m);
  cb_scene :
    Forall (mesh_object_below (length (meshes st))) (scene_children st) ->
    scene_children st' =
    remove_all (donutMeshes st)
               (scene_children st ++ [MeshObject (length (meshes st))])
      ++ map MeshObject (seq (S (length (meshes st))) donut_count)
}.

(** The geometry that a call of [createTextGeometry] returned, as the store
    holds it after the call. *)
Definition built_geometry (result : ref * State) : option Geometry :=
  geometries (snd result) !! fst result.

(** ** Summaries of the render loop, the panel and the resize handler *)

(** A state in which [animate] cannot fail. *)
Definition donuts_ready (st : State) : Prop :=
  NoDup (donutMeshes st) /\
  forall d, d ∈ donutMeshes st ->
    exists m, meshes st !! d = Some m /\ is_Some (userData_velocity m).

(** Everything of a state that [animate] leaves alone. *)
Definition outside_animate (st : State) :=
  (scene_children st, loadedFont st, textMesh st, donutMeshes st, config st,
   matcapTexture st, sizes st, camera_aspect st, camera_projection st,
   renderer_size st, renderer_pixelRatio st, geometries st, materials st,
   gui_folders st, font_loading st, alerts st, console st, random_calls st,
   window st).

(** One axis after a tick: past the boundary of 10 the velocity changed sign,
    otherwise it is the old one. *)
Definition reflected (p v v' : float) : Prop :=
  (Num.gt (Num.Math_abs p) 10 = true -> v' = (- v)%float) /\
  (Num.gt (Num.Math_abs p) 10 = false -> v' = v).

(** A donut whose material is the object [r]. *)
Definition donut_material (st : State) (donuts : list ref) (r : ref) : Prop :=
  exists d m, d ∈ donuts /\ meshes st !! d = Some m /\ material m = r.

(** Everything of a state that [handleResize] leaves alone. *)
Definition outside_resize (st : State) :=
  (scene_children st, loadedFont st, textMesh st, donutMeshes st,
   config st, matcapTexture st, rendered_frames st, geometries st,
   materials st, meshes st, gui_folders st, font_loading st,
   frame_requested st, alerts st, console st, random_calls st,
   clock_calls st, window st).

(** A child of the scene that is a mesh on a text geometry. *)
Definition is_text_object (st : State) (o : Object3D) : bool :=
  match o with
  | CameraObject => false
  | MeshObject r =>
      match meshes st !! r with
      | Some m =>
          match geometries st !! geometry m with
          | Some (mkGeometry (TextGeometry _ _) _ _) => true
          | _ => false
          end
      | None => false
      end
  end.

Definition text_objects (st : State) : list Object3D :=
  List.filter (is_text_object st) (scene_children st).

(** ** GPU resources *)

(** The geometries and materials whose buffers have not been released. *)
Definition live_geometries (st : State) : list Geometry :=
  List.filter (fun g => negb (g_disposed g)) (geometries st).

Definition live_materials (st : State) : list Material :=
  List.filter (fun m => negb (m_disposed m)) (materials st).

Definition gpu_resources (st : State) : nat :=
  length (live_geometries st) + length (live_materials st).

(** The content builder run [n] times over. *)
Fixpoint rebuilds (random : nat -> float) (n : nat) (font : Font) (st : State)
  : State :=
  match n with
  | 0 => st
  | S n' => setupSceneContent random font (rebuilds random n' font st)
  end.

(** ** The three phases of the page *)

(** Nothing has been built. *)
Record pristine (st : State) : Prop := {
  pr_font : loadedFont st = None;
  pr_text : textMesh st = None;
  pr_donuts : donutMeshes st = [];
  pr_scene : scene_children st = [CameraObject];
  pr_geometries : geometries st = [];
  pr_materials : materials st = [];
  pr_meshes : meshes st = [];
  pr_gui : gui_folders st = [];
  pr_frame : frame_requested st = false;
  pr_frames : rendered_frames st = 0
}.

(** The content has been built, once, into the empty store: the text mesh is
    object 0, the donuts are the objects 1 to 100, each with the material of
    its own number; geometry 1 is the shared torus. *)
Record running (st : State) : Prop := {
  rn_loading : font_loading st = false;
  rn_alerts : alerts st = [];
  rn_font : is_Some (loadedFont st);
  rn_text : textMesh st = Some 0;
  rn_donuts : donutMeshes st = seq 1 donut_count;
  rn_gui : gui_folders st = [TextFolder; DonutsFolder];
  rn_scene :
    scene_children st = CameraObject :: map MeshObject (seq 0 (S donut_count));
  rn_materials : length (materials st) = S donut_count;
  rn_meshes : length (meshes st) = S donut_count;
  rn_kinds :
    Forall (fun m => m_kind m = material_variant (matcapTexture st)
                     /\ m_disposed m = false) (materials st);
  rn_torus : geometries st !! 1 = Some torus;
  rn_textmesh :
    exists m text font,
      meshes st !! 0 = Some m /\ material m = 0 /\
      userData_velocity m = None /\ geometry m <> 1 /\
      geometries st !! geometry m = Some (text_geometry text font);
  rn_donutmesh :
    forall d, d ∈ seq 1 donut_count ->
      exists m, meshes st !! d = Some m /\ material m = d /\
                geometry m = 1 /\ is_Some (userData_velocity m)
}.

Inductive phase (st : State) : Prop :=
| Loading : font_loading st = true -> alerts st = [] -> pristine st -> phase st
| Failed : font_loading st = false -> alerts st = [AlertFontFailed] ->
           pristine st -> phase st
| Running : running st -> phase st.

(** ** A sample session *)

Definition sample_random (n : nat) : float :=
  match n mod 4 with
  | 0 => 0.25
  | 1 => 0.75
  | 2 => 0.5
  | _ => 0.125
  end%float.

(** The first frame is immediate, the second comes after the tab has been
    in the background for 2000 seconds, the later ones 16 ms apart. *)
Definition sample_delta (n : nat) : float :=
  match n with 0 => 0 | 1 => 2000 | _ => 0.016 end%float.

Definition sample_window : Window := mkWindow 800 600 3.

Definition sample_font : Font := mkFont 1.

(** The page after a successful start. *)
Abbreviation sample_running :=
  (run sample_random sample_delta (boot sample_window LoadThrows)
       [FontLoaded sample_font]).

(** ** Tactics *)

(** An equation between tuples, split into one equation per component. *)
Ltac split_pairs H :=
  repeat (let H' := fresh H in apply pair_equal_spec in H as [H H']).

(** Rewrites with the equations that say what a field of [st'] is. *)
Ltac transport st' :=
  repeat match goal with
         | H : ?f st' = _ |- context [?f st'] => rewrite H
         end.

(** ** The donuts as the loop creates them *)

(** The mesh that one round of the loop builds from nine draws of
    [Math.random()], the first of them draw number [n]: three for the
    position, two for the rotation, one for the scale, three for the
    velocity. *)
Definition donut_of_draws (random : nat -> float)
           (donutGeometry donutMaterial : ref) (n : nat) : Mesh :=
  let scale := (random (5 + n)%nat * 0.7 + 0.3)%float in
  {| geometry := donutGeometry; material := donutMaterial;
     position := mkVector3 ((random n - 0.5) * 15)%float ((random (1 + n)%nat - 0.5) * 15)
                           ((random (2 + n)%nat - 0.5) * 15);
     rotation := mkVector3 (random (3 + n)%nat * Num.PI) (random (4 + n)%nat * Num.PI) 0;
     scale := mkVector3 scale scale scale;
     userData_velocity :=
       Some (mkVector3 ((random (6 + n)%nat - 0.5) * 0.02)
                       ((random (7 + n)%nat - 0.5) * 0.02)
                       ((random (8 + n)%nat - 0.5) * 0.02)) |}.

(** The material of round [i]: the rainbow colour [i % 7]. *)
Definition donut_material_of (tex : option Texture) (i : nat) : Material :=
  mkMaterial (material_variant tex)
             (nth (i mod length donutColors) donutColors 0%N) false.

(** ** What the page keeps once the content is built *)

(** Two velocities with the same speed on every axis. *)
Definition same_speed (v v' : Vector3) : Prop :=
  abs (vx v') = abs (vx v) /\ abs (vy v') = abs (vy v) /\
  abs (vz v') = abs (vz v).

(** What a donut [m] has kept of the donut [m0] it was created as. *)
Record donut_kept (m0 m : Mesh) : Prop := {
  dk_geometry : geometry m = geometry m0;
  dk_material : material m = material m0;
  dk_scale : scale m = scale m0;
  dk_rotation_z : vz (rotation m) = vz (rotation m0);
  dk_speed :
    exists v0 v,
      userData_velocity m0 = Some v0 /\ userData_velocity m = Some v /\
      same_speed v0 v
}.

(** Donut [k] (counted from 0) as the first build of the page creates it:
    on geometry 1 with material [k + 1], from the draws [9k] to [9k + 8]. *)
Definition initial_donut (random : nat -> float) (k : nat) : Mesh :=
  donut_of_draws random 1 (S k) (9 * k).

(** The page before the content is built: nothing in the store, no draw of
    [Math.random()] and no reading of the clock yet. *)
Record fresh (st : State) : Prop := {
  fr_pristine : pristine st;
  fr_random : random_calls st = 0;
  fr_clock : clock_calls st = 0
}.

(** The page once the content is built. *)
Record settled (random : nat -> float) (st : State) : Prop := {
  se_donuts :
    forall k, k < donut_count ->
      exists m, meshes st !! S k = Some m /\ donut_kept (initial_donut random k) m;
  se_text :
    exists g font mat,
      meshes st !! 0 = Some (Mesh_new g 0) /\ loadedFont st = Some font /\
      geometries st !! g = Some (text_geometry (textValue (config st)) font) /\
      materials st !! 0 = Some mat /\ m_color mat = textColor (config st);
  se_colours :
    (forall k, k < donut_count ->
       m_color <$> materials st !! S k =
       Some (nth (k mod length donutColors) donutColors 0%N)) \/
    (forall k, k < donut_count ->
       m_color <$> materials st !! S k = Some (donutColor (config st)));
  se_live : length (live_geometries st) = 2;
  se_frames : rendered_frames st = clock_calls st /\ 0 < clock_calls st;
  se_loop : frame_requested st = true
}.

(** The camera and the renderer agree with the window. *)
Record fits_window (st : State) : Prop := {
  fw_sizes :
    sizes st = mkSizes (innerWidth (window st)) (innerHeight (window st));
  fw_aspect :
    camera_aspect st =
    (innerWidth (window st) / innerHeight (window st))%float;
  fw_projection : camera_projection st = camera_aspect st;
  fw_size :
    renderer_size st = (innerWidth (window st), innerHeight (window st));
  fw_ratio :
    renderer_pixelRatio st = Num.Math_min (devicePixelRatio (window st)) 2
}.

(** The window of the latest [Resize] among the events, [w] when there is
    none. *)
Fixpoint last_window (w : Window) (evs : list Event) : Window :=
  match evs with
  | [] => w
  | Resize w' :: evs => last_window w' evs
  | _ :: evs => last_window w evs
  end.

(** What of a state depends on the window. *)
Definition window_side (st : State) :=
  (sizes st, camera_aspect st, camera_projection st, renderer_size st,
   renderer_pixelRatio st, window st).

(** The three axes of a vector. *)
Definition axes : list (Vector3 -> float) := [vx; vy; vz].

(** The sample page after a frame, an edit of the text, a pick of the donut
    colour, a resize and another frame. *)
Abbreviation sample_events :=
  [FontLoaded sample_font; AnimationFrame; TextValueEdited (js "Hi");
   DonutColorPicked 0x00ff00%N; Resize (mkWindow 1024 768 1); AnimationFrame].

Abbreviation sample_edited :=
  (run sample_random sample_delta (boot sample_window LoadThrows)
       sample_events).

(** ** The rebuild as the specification describes it *)


(** * Properties *)

(** ** Numbers *)

Module NumFacts.

Import Num.
Local Open Scope float_scope.

Lemma digits2_pos_shift52 (m : positive) :
  Z.pos (digits2_pos (4503599627370496 * m)) = (Z.pos (digits2_pos m) + 52)%Z.
Proof. cbv [Pos.mul]. cbn [digits2_pos]. lia. Qed.

(** Multiplying by -1 is exact: the mantissa comes back after 52 shifts. *)
Lemma SFmul_minus_one (s : spec_float) :
  valid_binary s = true -> SF64mul s (Prim2SF (-1)) = SFopp s.
Proof.
  intros Hv.
  change (Prim2SF (-1)) with (S754_finite true 4503599627370496 (-52)).
  destruct s as [sx | sx | | sx mx ex]; cbn [SF64mul SFmul SFopp];
    rewrite ?xorb_true_r; try reflexivity.
  unfold valid_binary in Hv. cbn [SpecFloat.valid_binary] in Hv.
  apply andb_prop in Hv as [Hc Hb].
  apply Z.eqb_eq in Hc.
  rewrite Pos.mul_comm.
  unfold binary_round_aux, shr_fexp. cbn [Zdigits2].
  rewrite digits2_pos_shift52.
  replace (Z.pos (digits2_pos mx) + 52 + (ex + -52))%Z
    with (Z.pos (digits2_pos mx) + ex)%Z by lia.
  rewrite Hc.
  replace (ex - (ex + -52))%Z with 52%Z by lia.
  cbv [Pos.mul].
  cbn [shr shr_record_of_loc SpecFloat.iter_pos shr_1 shr_m loc_of_shr_record
       round_nearest_even orb].
  replace (ex + -52 + 52)%Z with ex by lia.
  cbn [Zdigits2]. rewrite Hc, Z.sub_diag.
  cbn [shr shr_m]. now rewrite Hb.
Qed.

(** [v *= -1] flips the sign of [v] and nothing else. *)
Lemma mul_minus_one (v : float) : v * -1 = - v.
Proof.
  apply Prim2SF_inj. rewrite mul_spec, opp_spec.
  apply SFmul_minus_one, Prim2SF_valid.
Qed.

Lemma SFcompare_Lt_asym (x y : spec_float) :
  SFcompare x y = Some Lt -> SFcompare y x <> Some Lt.
Proof.
  destruct x as [sx | sx | | sx mx ex], y as [sy | sy | | sy my ey];
    cbn [SFcompare]; try discriminate;
    try (destruct sx; discriminate); try (destruct sy; discriminate);
    try (destruct sx, sy; discriminate).
  change (Pos.compare_cont Eq mx my) with (Pos.compare mx my).
  change (Pos.compare_cont Eq my mx) with (Pos.compare my mx).
  rewrite (Z.compare_antisym ex ey), (Pos.compare_antisym mx my).
  destruct sx, sy; try discriminate;
    destruct (ex ?= ey)%Z, (mx ?= my)%positive; cbn [CompOpp]; congruence.
Qed.

Lemma ltb_asym (a b : float) : (a <? b) = true -> (b <? a) = false.
Proof.
  rewrite !ltb_spec. unfold SFltb. intros H.
  destruct (SFcompare (Prim2SF a) (Prim2SF b)) as [[]|] eqn:E; try discriminate.
  apply SFcompare_Lt_asym in E.
  destruct (SFcompare (Prim2SF b) (Prim2SF a)) as [[]|]; congruence.
Qed.

(** [Math.min(a, 2)] never exceeds 2, whatever [a] is. *)
Lemma Math_min_two_capped (a : float) : gt (Math_min a 2) 2 = false.
Proof.
  unfold gt, Math_min.
  destruct (is_nan a || is_nan 2); [reflexivity|].
  destruct (a <? 2) eqn:E1; [now apply ltb_asym|].
  destruct (2 <? a) eqn:E2; [reflexivity|].
  destruct (is_zero a && get_sign a); [exact E2 | reflexivity].
Qed.

End NumFacts.

(** ** Strings *)

Lemma trimStart_nil (s : JSString) :
  trimStart s = [] <-> forallb is_white_space s = true.
Proof.
  induction s as [|c s IH]; cbn [trimStart forallb]; [easy|].
  destruct (is_white_space c); cbn [andb]; [exact IH | easy].
Qed.

Lemma trimStart_suffix (s : JSString) :
  forallb is_white_space (trimStart s) = true -> forallb is_white_space s = true.
Proof.
  induction s as [|c s IH]; cbn [trimStart forallb]; [easy|].
  destruct (is_white_space c) eqn:E; cbn [andb forallb]; [exact IH|].
  rewrite E. easy.
Qed.

Lemma forallb_rev {A} (f : A -> bool) (l : list A) :
  forallb f (rev l) = forallb f l.
Proof.
  induction l as [|a l IH]; [reflexivity|].
  cbn [rev forallb]. rewrite forallb_app, IH. cbn [forallb].
  rewrite andb_true_r. apply andb_comm.
Qed.

(** [s.trim() === ''] says that [s] holds white space only. *)
Lemma trim_empty (s : JSString) :
  is_empty_string (trim s) = true <-> forallb is_white_space s = true.
Proof.
  unfold trim, trimEnd. split.
  - intros H.
    destruct (rev (trimStart (rev (trimStart s)))) eqn:E; [|discriminate].
    apply (f_equal (@rev N)) in E. rewrite rev_involutive in E. cbn in E.
    apply trimStart_nil in E. rewrite forallb_rev in E.
    now apply trimStart_suffix.
  - intros H. apply trimStart_nil in H. now rewrite H.
Qed.

(** ** The loop over the folders *)

(** Past the end of the array the loop visits nothing. *)
Lemma destroy_visited_beyond (a n : nat) (folders : list Folder) :
  length folders <= a ->
  fold_left destroy_visited (seq a n) folders = folders.
Proof.
  revert a. induction n as [|n IH]; intros a Ha; [reflexivity|].
  cbn [seq fold_left]. unfold destroy_visited at 2.
  rewrite lookup_ge_None_2 by exact Ha. apply IH. lia.
Qed.

Lemma destroy_visited_from (n : nat) (pre l : list Folder) :
  length l <= n ->
  fold_left destroy_visited (seq (length pre) n) (pre ++ l)
  = pre ++ every_second l.
Proof.
  revert pre l. induction n as [|n IH]; intros pre l Hn.
  - destruct l; [reflexivity|cbn in Hn; lia].
  - cbn [seq fold_left]. destruct l as [|x [|y l]].
    + unfold destroy_visited at 2.
      rewrite lookup_ge_None_2 by (rewrite app_nil_r; lia).
      apply destroy_visited_beyond. rewrite app_nil_r. lia.
    + unfold destroy_visited at 2.
      rewrite list_lookup_middle by reflexivity.
      rewrite delete_middle. cbn [every_second].
      apply destroy_visited_beyond. rewrite app_nil_r. lia.
    + unfold destroy_visited at 2.
      rewrite list_lookup_middle by reflexivity.
      rewrite delete_middle. cbn [every_second].
      replace (pre ++ y :: l) with ((pre ++ [y]) ++ l)
        by now rewrite <- app_assoc.
      replace (S (length pre)) with (length (pre ++ [y]))
        by (rewrite length_app; cbn; lia).
      rewrite IH by (cbn in Hn; lia).
      now rewrite <- app_assoc.
Qed.

(** The loop destroys the folders at the even positions only: every second
    folder survives it. *)
Lemma forEach_destroy_every_second (folders : list Folder) :
  forEach_destroy folders = every_second folders.
Proof.
  unfold forEach_destroy.
  exact (destroy_visited_from (length folders) [] folders (le_n _)).
Qed.

(** ** The scene builder *)

Lemma remove_first_fresh (o : Object3D) (l : list Object3D) :
  o ∉ l -> remove_first o l = l.
Proof.
  induction l as [|o' l IH]; cbn [remove_first]; [easy|].
  intros H. apply not_elem_of_cons in H as [H1 H2].
  destruct (decide (o = o')); [easy|]. now rewrite IH.
Qed.

Lemma mesh_object_fresh (n : nat) (l : list Object3D) :
  Forall (mesh_object_below n) l -> MeshObject n ∉ l.
Proof.
  intros H Hin. rewrite Forall_forall in H. apply H in Hin. cbn in Hin. lia.
Qed.

Lemma mesh_object_below_le (n n' : nat) (l : list Object3D) :
  n <= n' -> Forall (mesh_object_below n) l -> Forall (mesh_object_below n') l.
Proof.
  intros Hle H. eapply Forall_impl; [exact H|]. intros [|r]; cbn; [easy|lia].
Qed.

Section Builder.

Variable random : nat -> float.

Lemma new_material_eq (c : Color) (st : State) :
  new_material c st =
  (length (materials st),
   set_materials
     (materials st ++ [mkMaterial (material_variant (matcapTexture st)) c false])
     st).
Proof. unfold new_material, alloc_material. now destruct (matcapTexture st). Qed.

Lemma create_donut_spec (donutGeometry : ref) (st : State) (i : nat) :
  donut_created donutGeometry st (create_donut random donutGeometry st i).
Proof.
  unfold create_donut. rewrite new_material_eq.
  split; cbn; eauto.
Qed.

Lemma donut_loop_spec (donutGeometry : ref) (a n : nat) (st0 : State) :
  donuts_created donutGeometry n st0
    (fold_left (create_donut random donutGeometry) (seq a n) st0).
Proof.
  induction n as [|n IH].
  - split; cbn; rewrite ?app_nil_r; try easy.
    + exists []. now rewrite app_nil_r.
    + exists []. rewrite app_nil_r. repeat split; try easy.
  - rewrite seq_S, fold_left_app. cbn [fold_left].
    generalize dependent (fold_left (create_donut random donutGeometry) (seq a n) st0).
    intros st IH.
    destruct IH as [Ho Hr Hd Hs (newm & Hm & Hlm & Hfm) (new & Hn & Hln & Hfn)].
    destruct (create_donut_spec donutGeometry st (a + n))
      as [Ho' Hr' Hd' Hs' (c & Hm') (p & r & s & v & Hn')].
    assert (Hlen : length (meshes st) = length (meshes st0) + n)
      by (rewrite Hn, length_app; lia).
    assert (Htex : matcapTexture st = matcapTexture st0)
      by (unfold outside_donut_loop in Ho; congruence).
    split.
    + congruence.
    + lia.
    + rewrite Hd', Hd, Hlen, seq_S, app_assoc. reflexivity.
    + intros Hfresh. rewrite Hs', (Hs Hfresh), Hlen, seq_S, map_app, app_assoc.
      f_equal. apply remove_first_fresh.
      rewrite not_elem_of_app. split.
      * apply mesh_object_fresh.
        eapply mesh_object_below_le; [|exact Hfresh]. lia.
      * rewrite list_elem_of_fmap. intros (x & Hx & Hin).
        apply elem_of_seq in Hin. inversion Hx. lia.
    + exists (newm ++ [mkMaterial (material_variant (matcapTexture st)) c false]).
      rewrite Hm', Hm, app_assoc, length_app. cbn [length].
      repeat split; [lia|].
      apply Forall_app. split; [exact Hfm|].
      repeat constructor. now rewrite Htex.
    + exists (new ++ [mkMesh donutGeometry (length (materials st)) p r s (Some v)]).
      rewrite Hn', Hn, app_assoc, length_app. cbn [length].
      repeat split; try lia.
      all: destruct (decide (j < length new)) as [Hj|Hj].
      all: try (rewrite lookup_app_l in H by exact Hj;
                now apply (Hfn j m H)).
      all: rewrite lookup_app_r in H by lia.
      all: destruct (j - length new) eqn:E; cbn in H; [|now destruct n0].
      all: injection H as <-; cbn; try easy.
      rewrite Hm, length_app. lia.
Qed.

End Builder.

Lemma remove_first_Forall (P : Object3D -> Prop) (o : Object3D) (l : list Object3D) :
  Forall P l -> Forall P (remove_first o l).
Proof.
  induction 1 as [|o' l Ho Hl IH]; cbn [remove_first]; [constructor|].
  destruct (decide (o = o')); [exact Hl | now constructor].
Qed.

Lemma remove_all_Forall (P : Object3D -> Prop) (ds : list ref) (l : list Object3D) :
  Forall P l -> Forall P (remove_all ds l).
Proof.
  revert l. induction ds as [|d ds IH]; intros l H; [exact H|].
  apply IH. now apply remove_first_Forall.
Qed.

Lemma scene_remove_all (ds : list ref) (st : State) :
  fold_left (fun st d => scene_remove (MeshObject d) st) ds st =
  set_scene_children (remove_all ds (scene_children st)) st.
Proof.
  revert st. induction ds as [|d ds IH]; intros st.
  - now destruct st.
  - cbn [fold_left remove_all]. now rewrite IH.
Qed.

Lemma alter_snoc {A} (f : A -> A) (l : list A) (x : A) :
  alter f (length l) (l ++ [x]) = l ++ [f x].
Proof.
  replace (length l) with (length l + 0) by lia. now rewrite alter_app_r.
Qed.

Lemma createTextGeometry_eq (text : JSString) (font : Font) (st : State) :
  createTextGeometry text font st =
  (length (geometries st),
   set_geometries (geometries st ++ [text_geometry text font]) st).
Proof.
  unfold createTextGeometry, alloc_geometry, center, set_geometries.
  cbn. now rewrite alter_snoc.
Qed.

Section BuilderSummary.

Variable random : nat -> float.

Local Opaque donut_count.

Lemma setupSceneContent_spec (font : Font) (st : State) :
  content_built font st (setupSceneContent random font st).
Proof.
  unfold setupSceneContent.
  rewrite new_material_eq, createTextGeometry_eq.
  cbn [alloc_mesh alloc_geometry].
  rewrite scene_remove_all.
  match goal with
  | |- context [fold_left (create_donut random ?dg) (seq 0 donut_count) ?s] =>
      remember s as s0 eqn:E0; remember dg as dg0 eqn:Edg;
      pose proof (donut_loop_spec random dg0 0 donut_count s0) as Hloop;
      generalize dependent
        (fold_left (create_donut random dg0) (seq 0 donut_count) s0);
      intros st1 [Ho Hr Hd Hs (newm & Hm & Hlm & Hfm) (new & Hn & Hln & Hfn)]
  end.
  assert (Edg' : dg0 = S (length (geometries st)))
    by (subst dg0; cbn; rewrite length_app; cbn; lia).
  assert (Emesh : meshes s0 =
                  meshes st ++ [Mesh_new (length (geometries st))
                                         (length (materials st))])
    by (subst s0; reflexivity).
  assert (Emat : materials s0 =
                 materials st ++ [mkMaterial (material_variant (matcapTexture st))
                                             (textColor (config st)) false])
    by (subst s0; reflexivity).
  assert (Escene : scene_children s0 =
                   remove_all (donutMeshes st)
                     (remove_first (MeshObject (length (meshes st)))
                                   (scene_children st)
                      ++ [MeshObject (length (meshes st))]))
    by (subst s0; reflexivity).
  assert (Edon : donutMeshes s0 = []) by (subst s0; reflexivity).
  assert (Htex : matcapTexture s0 = matcapTexture st) by (subst s0; reflexivity).
  assert (Eout : outside_donut_loop s0 =
                 (Some font, Some (length (meshes st)), config st,
                  matcapTexture st, sizes st, camera_aspect st,
                  camera_projection st, renderer_size st,
                  renderer_pixelRatio st, rendered_frames st,
                  (geometries st ++ [text_geometry (textValue (config st)) font])
                    ++ [torus],
                  gui_folders st, font_loading st, frame_requested st,
                  alerts st, console st, clock_calls st, window st))
    by (subst s0; reflexivity).
  clear E0 Edg. subst dg0.
  rewrite Eout in Ho. unfold outside_donut_loop in Ho.
  split_pairs Ho. clear Eout.
  rewrite Emesh, Edon in Hd. rewrite Emesh, Escene in Hs.
  rewrite Emesh in Hn. rewrite Emat in Hm, Hfn.
  rewrite Htex in Hfm.
  rewrite length_app in Hd, Hs, Hfn. cbn [length] in Hd, Hs, Hfn.
  rewrite Nat.add_1_r in Hd, Hs, Hfn. cbn [app] in Hd.
  split;
    cbn [set_gui_folders loadedFont textMesh donutMeshes gui_folders
         geometries materials meshes scene_children app].
  - unfold outside_builder.
    cbn [set_gui_folders config matcapTexture sizes camera_aspect
         camera_projection renderer_size renderer_pixelRatio rendered_frames
         font_loading frame_requested alerts console clock_calls window].
    congruence.
  - assumption.
  - assumption.
  - exact Hd.
  - rewrite forEach_destroy_every_second, <- app_assoc. cbn [app].
    congruence.
  - rewrite <- app_assoc in *. assumption.
  - exists newm. rewrite Hm, <- app_assoc. easy.
  - exists new. rewrite Hn, <- app_assoc. repeat split; try easy.
    all: apply Hfn in H; lia || easy.
  - intros Hfresh. rewrite remove_first_fresh in Hs
      by now apply mesh_object_fresh.
    apply Hs, remove_all_Forall, Forall_app. split.
    + eapply mesh_object_below_le; [|exact Hfresh]. lia.
    + repeat constructor.
Qed.

End BuilderSummary.

(** ** The render loop *)

Lemma animate_donut_ok (deltaTime : float) (m : Mesh) (v : Vector3) :
  userData_velocity m = Some v ->
  animate_donut deltaTime m =
  (true,
   let pos := addScaledVector (position m) v (deltaTime * 60)%float in
   mkMesh (geometry m) (material m) pos
          (mkVector3 (vx (rotation m) + deltaTime * 0.5)%float
                     (vy (rotation m) + deltaTime * 0.5)%float
                     (vz (rotation m)))
          (scale m)
          (Some (mkVector3 (bounce (vx pos) (vx v)) (bounce (vy pos) (vy v))
                           (bounce (vz pos) (vz v))))).
Proof. intros H. unfold animate_donut. now rewrite H. Qed.

(** With a velocity on every donut and no donut listed twice, the loop
    completes, and each donut is moved once. *)
Lemma animate_donuts_spec (deltaTime : float) (donuts : list ref) (ms : list Mesh) :
  NoDup donuts ->
  (forall d, d ∈ donuts ->
     exists m, ms !! d = Some m /\ is_Some (userData_velocity m)) ->
  exists ms',
    animate_donuts deltaTime donuts ms = (true, ms') /\
    length ms' = length ms /\
    (forall d m, d ∈ donuts -> ms !! d = Some m ->
       ms' !! d = Some (snd (animate_donut deltaTime m))) /\
    (forall i, i ∉ donuts -> ms' !! i = ms !! i).
Proof.
  revert ms. induction donuts as [|d ds IH]; intros ms Hnd Hall.
  - exists ms. cbn [animate_donuts]. repeat split; easy.
  - apply NoDup_cons in Hnd as [Hd Hnd].
    destruct (Hall d) as (m & Hm & v & Hv); [left|].
    cbn [animate_donuts]. rewrite Hm, (animate_donut_ok _ _ _ Hv).
    match goal with
    | |- context [<[d := ?x]> ms] => set (m' := x)
    end.
    assert (Hm' : snd (animate_donut deltaTime m) = m')
      by now rewrite (animate_donut_ok _ _ _ Hv).
    destruct (IH (<[d := m']> ms) Hnd) as (ms' & Hrun & Hlen & Hin & Hout).
    { intros d' Hd'. destruct (Hall d') as (md & Hmd & Hvd); [now right|].
      exists md. split; [|exact Hvd].
      rewrite list_lookup_insert_ne; [exact Hmd|]. intros ->. contradiction. }
    exists ms'. rewrite Hrun. repeat split.
    + now rewrite Hlen, length_insert.
    + intros d' md Hd' Hmd. apply elem_of_cons in Hd' as [->|Hd'].
      * rewrite (Hout d Hd), list_lookup_insert_eq
          by (eapply lookup_lt_Some; exact Hm).
        congruence.
      * apply Hin; [exact Hd'|].
        rewrite list_lookup_insert_ne; [exact Hmd|]. intros ->. contradiction.
    + intros i Hi. apply not_elem_of_cons in Hi as [Hne Hi].
      rewrite (Hout i Hi). now apply list_lookup_insert_ne.
Qed.

Section RenderLoop.

Variable getDelta : nat -> float.

Lemma animate_spec (st : State) :
  donuts_ready st ->
  let deltaTime := getDelta (clock_calls st) in
  let st' := animate getDelta st in
  outside_animate st' = outside_animate st /\
  frame_requested st' = true /\
  rendered_frames st' = S (rendered_frames st) /\
  clock_calls st' = S (clock_calls st) /\
  length (meshes st') = length (meshes st) /\
  (forall d m, d ∈ donutMeshes st -> meshes st !! d = Some m ->
     meshes st' !! d = Some (snd (animate_donut deltaTime m))) /\
  (forall i, i ∉ donutMeshes st -> meshes st' !! i = meshes st !! i).
Proof.
  intros [Hnd Hall] deltaTime st'. subst st'. unfold animate, clock_getDelta.
  cbn [set_clock_calls donutMeshes meshes clock_calls].
  destruct (animate_donuts_spec deltaTime _ _ Hnd Hall)
    as (ms' & Hrun & Hlen & Hin & Hout).
  fold deltaTime. rewrite Hrun. cbn. easy.
Qed.

End RenderLoop.

(** ** The panel *)

Lemma onTextColor_eq (c : Color) (st : State) (text : ref) (m : Mesh) :
  textMesh st = Some text -> meshes st !! text = Some m ->
  onTextColor c st =
  set_materials (alter (recolor c) (material m) (materials st)) st.
Proof. intros Ht Hm. unfold onTextColor. now rewrite Ht, Hm. Qed.

Lemma onTextValue_eq (s : JSString) (st : State) (text : ref) (font : Font)
      (m : Mesh) :
  textMesh st = Some text -> loadedFont st = Some font ->
  meshes st !! text = Some m ->
  onTextValue s st =
  set_meshes (alter (with_geometry (length (geometries st))) text (meshes st))
    (set_geometries
       (alter released (geometry m) (geometries st) ++ [text_geometry s font])
       st).
Proof.
  intros Ht Hf Hm. unfold onTextValue. rewrite Ht, Hf, Hm.
  rewrite createTextGeometry_eq. unfold dispose. cbn.
  now rewrite length_alter.
Qed.

Lemma recolor_twice (c : Color) (o : option Material) :
  recolor c <$> (recolor c <$> o) = recolor c <$> o.
Proof. now destruct o as [[]|]. Qed.

Lemma classic_donut (donuts : list ref) (st : State) (r : ref) :
  donut_material st donuts r \/ ~ donut_material st donuts r.
Proof.
  induction donuts as [|d ds IH].
  - right. intros (d & m & Hd & _). now apply elem_of_nil in Hd.
  - destruct IH as [(d' & m' & Hd' & Hm')|IH].
    + left. exists d', m'. split; [now right|easy].
    + destruct (meshes st !! d) as [m|] eqn:Hm.
      * destruct (decide (material m = r)) as [Hr|Hr].
        -- left. exists d, m. repeat split; [now left|easy|easy].
        -- right. intros (d' & m' & Hd' & Hm' & Hr').
           apply elem_of_cons in Hd' as [->|Hd'].
           ++ congruence.
           ++ apply IH. now exists d', m'.
      * right. intros (d' & m' & Hd' & Hm' & Hr').
        apply elem_of_cons in Hd' as [->|Hd'].
        -- congruence.
        -- apply IH. now exists d', m'.
Qed.

Lemma recolor_donuts_spec (c : Color) (donuts : list ref) (st : State) :
  exists mats,
    fold_left
      (fun st donut =>
         match meshes st !! donut with
         | Some m => color_set (material m) c st
         | None => st
         end) donuts st
    = set_materials mats st /\
    length mats = length (materials st) /\
    (forall r, donut_material st donuts r ->
       mats !! r = recolor c <$> materials st !! r) /\
    (forall r, ~ donut_material st donuts r -> mats !! r = materials st !! r).
Proof.
  revert st. induction donuts as [|d ds IH]; intros st.
  - exists (materials st). cbn [fold_left]. repeat split.
    + now destruct st.
    + intros r (d & m & Hd & _). now apply elem_of_nil in Hd.
  - cbn [fold_left].
    destruct (meshes st !! d) as [m|] eqn:Hm.
    + destruct (IH (color_set (material m) c st)) as (mats & Heq & Hlen & Hin & Hout).
      exists mats. rewrite Heq. unfold color_set in *.
      cbn [set_materials materials meshes] in *.
      rewrite length_alter in Hlen.
      assert (Hsame : forall r, donut_material
                 (set_materials (alter (recolor c) (material m) (materials st)) st)
                 ds r
               <-> donut_material st ds r) by easy.
      repeat split; [exact Hlen| |].
      * intros r Hr.
        destruct (classic_donut ds st r) as [Hds|Hds].
        -- rewrite (Hin r) by now apply Hsame.
           destruct (decide (r = material m)) as [->|Hne].
           ++ rewrite list_lookup_alter_eq.
              apply recolor_twice.
           ++ now rewrite list_lookup_alter_ne.
        -- rewrite (Hout r) by now rewrite Hsame.
           destruct Hr as (d' & m' & Hd' & Hm' & Hr).
           apply elem_of_cons in Hd' as [->|Hd'].
           ++ rewrite Hm in Hm'. injection Hm' as <-. subst r.
              now rewrite list_lookup_alter_eq.
           ++ exfalso. apply Hds. now exists d', m'.
      * intros r Hr.
        assert (Hds : ~ donut_material st ds r).
        { intros (d' & m' & Hd' & Hm' & Hr'). apply Hr.
          exists d', m'. repeat split; [now right|easy|easy]. }
        rewrite (Hout r) by now rewrite Hsame.
        apply list_lookup_alter_ne. intros <-. apply Hr.
        exists d, m. repeat split; [now left|easy].
    + destruct (IH st) as (mats & Heq & Hlen & Hin & Hout).
      exists mats. repeat split; [exact Heq|exact Hlen| |].
      * intros r (d' & m' & Hd' & Hm' & Hr).
        apply Hin. exists d', m'. repeat split; [|easy|easy].
        apply elem_of_cons in Hd' as [->|Hd']; [congruence|easy].
      * intros r Hr. apply Hout. intros (d' & m' & Hd' & Hm' & Hr').
        apply Hr. exists d', m'. repeat split; [now right|easy|easy].
Qed.

(** ** The phases are invariant *)

Lemma running_donuts_ready (st : State) : running st -> donuts_ready st.
Proof.
  intros R. split.
  - rewrite (rn_donuts _ R). apply NoDup_seq.
  - intros d Hd. rewrite (rn_donuts _ R) in Hd.
    destruct (rn_donutmesh _ R d Hd) as (m & Hm & _ & _ & Hv). now exists m.
Qed.

Lemma handleResize_outside (st : State) :
  outside_resize (handleResize st) = outside_resize st.
Proof. reflexivity. Qed.

Lemma pristine_handleResize (st : State) :
  pristine st -> pristine (handleResize st).
Proof. intros []. now split. Qed.

Lemma running_handleResize (st : State) :
  running st -> running (handleResize st).
Proof. intros []. now split. Qed.

Section Phases.

Variable random : nat -> float.
Variable getDelta : nat -> float.

Local Opaque donut_count.

Lemma running_animate (st : State) :
  running st -> running (animate getDelta st).
Proof.
  intros R.
  destruct (animate_spec getDelta st (running_donuts_ready st R))
    as (Ho & _ & _ & _ & Hlen & Hin & Hout).
  generalize dependent (animate getDelta st). intros st' Ho Hlen Hin Hout.
  unfold outside_animate in Ho. split_pairs Ho.
  destruct R as [R1 R2 R3 R4 R5 R6 R7 R8 Rm R9 R10 R11 R12].
  split; try congruence.
  - now transport st'.
  - destruct R11 as (m & text & font & Hm & Hrest).
    exists m, text, font. rewrite Hout; [|rewrite R5, elem_of_seq; lia].
    split; [exact Hm|]. now replace (geometries st') with (geometries st).
  - intros d Hd. destruct (R12 d Hd) as (m & Hm & Hmat & Hgeo & v & Hv).
    exists (snd (animate_donut (getDelta (clock_calls st)) m)).
    split; [apply Hin; [now rewrite R5|exact Hm]|].
    rewrite (animate_donut_ok _ _ _ Hv). cbn. eauto.
Qed.

Lemma running_built (font : Font) (st : State) :
  pristine st -> font_loading st = false -> alerts st = [] ->
  running (setupSceneContent random font st).
Proof.
  intros P Hl Ha.
  destruct (setupSceneContent_spec random font st)
    as [Ho Hf Ht Hd Hg Hgeo (newm & Hm & Hlm & Hfm) (new & Hn & Hln & Hfn) Hs].
  generalize dependent (setupSceneContent random font st). intros st'.
  intros Ho Hf Ht Hd Hg Hgeo Hm Hn Hs.
  destruct P as [P1 P2 P3 P4 P5 P6 P7 P8 P9 P10].
  rewrite P7 in Ht, Hd, Hn, Hs. rewrite P5 in Hgeo, Hn, Hfn.
  rewrite P6 in Hm, Hn, Hfn. rewrite P3, P4 in Hs. rewrite P8 in Hg.
  cbn [length app every_second] in *.
  unfold outside_builder in Ho. split_pairs Ho.
  split; try congruence.
  - now rewrite Hf.
  - rewrite Hs by (repeat constructor). reflexivity.
  - rewrite Hm. cbn [length]. now rewrite Hlm.
  - rewrite Hn. cbn [length]. now rewrite Hln.
  - transport st'. now constructor.
  - now rewrite Hgeo.
  - exists (Mesh_new 0 0), (textValue (config st)), font.
    rewrite Hn, Hgeo. repeat split; easy.
  - intros d Hd'. apply elem_of_seq in Hd'.
    destruct (lookup_lt_is_Some_2 new (d - 1)) as [m Hm']; [lia|].
    exists m. destruct (Hfn _ _ Hm') as (H1 & H2 & H3).
    rewrite Hn. destruct d as [|d]; [lia|].
    cbn [lookup list_lookup]. replace (S d - 1) with d in * by lia.
    repeat split; easy.
Qed.

Lemma running_onTextColor (c : Color) (st : State) :
  running st -> running (onTextColor c st).
Proof.
  intros R. destruct (rn_textmesh _ R) as (m & text & font & Hm & Hmat & _).
  rewrite (onTextColor_eq c st 0 m (rn_text _ R) Hm).
  destruct R as [R1 R2 R3 R4 R5 R6 R7 R8 Rm R9 R10 R11 R12].
  split; cbn [set_materials font_loading alerts loadedFont textMesh donutMeshes
              gui_folders scene_children materials matcapTexture geometries
              meshes]; try easy.
  - now rewrite length_alter.
  - apply Forall_alter; [exact R9|]. now intros [].
Qed.

Lemma running_onTextValue (s : JSString) (st : State) :
  running st -> running (onTextValue s st).
Proof.
  intros R. destruct (rn_textmesh _ R) as (m & text & font & Hm & Hmat & Hv & Hg & Hgeo).
  destruct (rn_font _ R) as [f Hf].
  rewrite (onTextValue_eq s st 0 f m (rn_text _ R) Hf Hm).
  destruct R as [R1 R2 R3 R4 R5 R6 R7 R8 Rm R9 R10 R11 R12].
  pose proof (lookup_lt_Some _ _ _ R10) as Hlen.
  split; cbn [set_meshes set_geometries font_loading alerts loadedFont textMesh
              donutMeshes gui_folders scene_children materials matcapTexture
              geometries meshes]; try easy.
  - now rewrite length_alter.
  - rewrite lookup_app_l by (rewrite length_alter; lia).
    rewrite list_lookup_alter_ne by congruence. exact R10.
  - exists (with_geometry (length (geometries st)) m), s, f.
    rewrite list_lookup_alter_eq, Hm. cbn [fmap option_fmap option_map
      with_geometry material userData_velocity geometry].
    repeat split; try easy; try lia.
    rewrite lookup_app_r by (rewrite length_alter; lia).
    rewrite length_alter, Nat.sub_diag. reflexivity.
  - intros d Hd. rewrite list_lookup_alter_ne; [now apply R12|].
    apply elem_of_seq in Hd. lia.
Qed.

Lemma running_onDonutColor (c : Color) (st : State) :
  running st -> running (onDonutColor c st).
Proof.
  intros R. unfold onDonutColor.
  destruct (recolor_donuts_spec c (donutMeshes st) st)
    as (mats & -> & Hlen & Hin & Hout).
  destruct R as [R1 R2 R3 R4 R5 R6 R7 R8 Rm R9 R10 R11 R12].
  split; cbn [set_materials font_loading alerts loadedFont textMesh donutMeshes
              gui_folders scene_children materials matcapTexture geometries
              meshes]; try easy.
  - congruence.
  - rewrite Forall_lookup in R9 |- *. intros r x Hx.
    destruct (classic_donut (donutMeshes st) st r) as [Hr|Hr].
    + rewrite (Hin r Hr) in Hx.
      destruct (materials st !! r) as [y|] eqn:Hy; [|discriminate].
      injection Hx as <-. now apply (R9 r y).
    + rewrite (Hout r Hr) in Hx. now apply (R9 r x).
Qed.

Lemma phase_boot (w : Window) (load : TextureLoad) : phase (boot w load).
Proof. now apply Loading. Qed.

Lemma pristine_no_folder (st : State) (f : Folder) :
  pristine st -> f ∉ gui_folders st.
Proof. intros P. rewrite (pr_gui _ P). apply not_elem_of_nil. Qed.

(** Before the content is built, no handler but the font callbacks and
    [handleResize] can run. *)
Lemma pristine_dispatch (st : State) (ev : Event) :
  font_loading st = false -> pristine st ->
  pristine (dispatch random getDelta st ev) /\
  font_loading (dispatch random getDelta st ev) = false /\
  alerts (dispatch random getDelta st ev) = alerts st.
Proof.
  intros Hl P. pose proof (pr_frame _ P) as Hf.
  pose proof (pristine_no_folder st TextFolder P) as HT.
  pose proof (pristine_no_folder st DonutsFolder P) as HD.
  destruct ev; cbn [dispatch]; rewrite ?Hl, ?Hf; try easy.
  - split; [|easy]. apply pristine_handleResize. now destruct P.
  - now destruct (decide (TextFolder ∈ gui_folders st)).
  - now destruct (decide (TextFolder ∈ gui_folders st)).
  - now destruct (decide (DonutsFolder ∈ gui_folders st)).
Qed.

Lemma running_dispatch (st : State) (ev : Event) :
  running st -> running (dispatch random getDelta st ev).
Proof.
  intros R. pose proof (rn_loading _ R) as Hl.
  destruct ev; cbn [dispatch]; rewrite ?Hl; try easy.
  - apply running_handleResize. now destruct R.
  - destruct (frame_requested st); [|easy].
    apply running_animate. now destruct R.
  - destruct (decide (TextFolder ∈ gui_folders st)); [|easy].
    apply running_onTextColor. now destruct R.
  - destruct (decide (TextFolder ∈ gui_folders st)); [|easy].
    apply running_onTextValue. now destruct R.
  - destruct (decide (DonutsFolder ∈ gui_folders st)); [|easy].
    apply running_onDonutColor. now destruct R.
Qed.

Lemma phase_dispatch (st : State) (ev : Event) :
  phase st -> phase (dispatch random getDelta st ev).
Proof.
  intros [Hl Ha P | Hl Ha P | R].
  - pose proof (pr_frame _ P) as Hf.
    pose proof (pristine_no_folder st TextFolder P) as HT.
    pose proof (pristine_no_folder st DonutsFolder P) as HD.
    destruct ev; cbn [dispatch]; rewrite ?Hl, ?Hf.
    + apply Running, running_animate, running_handleResize, running_built;
        try easy. now destruct P.
    + apply Failed; try easy; [now cbn; rewrite Ha | now destruct P].
    + apply Loading; try easy. apply pristine_handleResize. now destruct P.
    + now apply Loading.
    + destruct (decide (TextFolder ∈ gui_folders st)); [easy|now apply Loading].
    + destruct (decide (TextFolder ∈ gui_folders st)); [easy|now apply Loading].
    + destruct (decide (DonutsFolder ∈ gui_folders st)); [easy|now apply Loading].
  - destruct (pristine_dispatch st ev Hl P) as (P' & Hl' & Ha').
    apply Failed; congruence.
  - now apply Running, running_dispatch.
Qed.

Lemma phase_run (st : State) (evs : list Event) :
  phase st -> phase (run random getDelta st evs).
Proof.
  revert st. induction evs as [|ev evs IH]; intros st H; [exact H|].
  apply IH, phase_dispatch, H.
Qed.

Lemma phase_reachable (w : Window) (load : TextureLoad) (evs : list Event) :
  phase (run random getDelta (boot w load) evs).
Proof. apply phase_run, phase_boot. Qed.

End Phases.

(** ** What every handler leaves alone *)

Section Frames.

Variable random : nat -> float.
Variable getDelta : nat -> float.

Local Opaque donut_count.

Lemma animate_outside (st : State) :
  outside_animate (animate getDelta st) = outside_animate st.
Proof.
  unfold animate, clock_getDelta.
  cbn [set_clock_calls donutMeshes meshes clock_calls].
  destruct (animate_donuts _ _ _) as [[] ms]; reflexivity.
Qed.

Lemma onTextColor_outside (c : Color) (st : State) :
  exists mats,
    onTextColor c st = set_materials mats st /\
    length mats = length (materials st) /\
    Forall2 (fun o o' => m_kind o' = m_kind o /\ m_disposed o' = m_disposed o)
            (materials st) mats.
Proof.
  assert (Hrefl : Forall2 (fun o o' : Material =>
                     m_kind o' = m_kind o /\ m_disposed o' = m_disposed o)
                   (materials st) (materials st))
    by (apply Forall2_same_length_lookup_2; [easy|]; intros; simplify_eq; easy).
  unfold onTextColor.
  destruct (textMesh st) as [t|];
    [destruct (meshes st !! t) as [m|]|].
  2,3: exists (materials st); now destruct st.
  exists (alter (recolor c) (material m) (materials st)).
  repeat split; [apply length_alter|].
  apply Forall2_same_length_lookup_2; [now rewrite length_alter|].
  intros i x y Hx Hy.
  destruct (decide (i = material m)) as [->|Hne].
  - rewrite list_lookup_alter_eq, Hx in Hy. cbn in Hy. now simplify_eq.
  - rewrite list_lookup_alter_ne in Hy by congruence. now simplify_eq.
Qed.

Lemma donuts_dispatch (st : State) (ev : Event) :
  length (donutMeshes st) = donut_count -> NoDup (donutMeshes st) ->
  length (donutMeshes (dispatch random getDelta st ev)) = donut_count /\
  NoDup (donutMeshes (dispatch random getDelta st ev)).
Proof.
  intros Hlen Hnd.
  assert (Hanim : forall s, donutMeshes (animate getDelta s) = donutMeshes s).
  { intros s. pose proof (animate_outside s) as H.
    unfold outside_animate in H. split_pairs H. assumption. }
  assert (Hsize : forall s, donutMeshes (handleResize s) = donutMeshes s)
    by reflexivity.
  destruct ev; cbn [dispatch].
  - destruct (font_loading st); [|easy].
    rewrite Hanim, Hsize.
    rewrite (cb_donuts _ _ _ (setupSceneContent_spec random f _)).
    split; [apply length_seq | apply NoDup_seq].
  - now destruct (font_loading st).
  - easy.
  - destruct (frame_requested st); [|easy]. now rewrite Hanim.
  - destruct (decide (TextFolder ∈ gui_folders st)); [|easy].
    destruct (onTextColor_outside c (set_textColor c st)) as (mats & -> & _).
    easy.
  - destruct (decide (TextFolder ∈ gui_folders st)); [|easy].
    unfold onTextValue.
    cbn [set_textValue set_config textMesh loadedFont meshes].
    destruct (textMesh st) as [t|]; [|easy].
    destruct (loadedFont st) as [f|]; [|easy].
    destruct (meshes st !! t) as [m|]; [|easy].
    rewrite createTextGeometry_eq. easy.
  - destruct (decide (DonutsFolder ∈ gui_folders st)); [|easy].
    unfold onDonutColor.
    destruct (recolor_donuts_spec c (donutMeshes (set_donutColor c st))
                                  (set_donutColor c st)) as (mats & -> & _).
    easy.
Qed.

Lemma matcapTexture_dispatch (st : State) (ev : Event) :
  matcapTexture (dispatch random getDelta st ev) = matcapTexture st.
Proof.
  assert (Hanim : forall s, matcapTexture (animate getDelta s) = matcapTexture s).
  { intros s. pose proof (animate_outside s) as H.
    unfold outside_animate in H. split_pairs H. assumption. }
  assert (Hsize : forall s, matcapTexture (handleResize s) = matcapTexture s)
    by reflexivity.
  destruct ev; cbn [dispatch].
  - destruct (font_loading st); [|easy].
    rewrite Hanim, Hsize.
    pose proof (cb_outside _ _ _ (setupSceneContent_spec random f
      (console_log LogFontLoaded (set_font_loading false st)))) as H.
    unfold outside_builder in H. split_pairs H. assumption.
  - now destruct (font_loading st).
  - easy.
  - destruct (frame_requested st); [|easy]. now rewrite Hanim.
  - destruct (decide (TextFolder ∈ gui_folders st)); [|easy].
    destruct (onTextColor_outside c (set_textColor c st)) as (mats & -> & _).
    easy.
  - destruct (decide (TextFolder ∈ gui_folders st)); [|easy].
    unfold onTextValue.
    cbn [set_textValue set_config textMesh loadedFont meshes].
    destruct (textMesh st) as [t|]; [|easy].
    destruct (loadedFont st) as [f|]; [|easy].
    destruct (meshes st !! t) as [m|]; [|easy].
    rewrite createTextGeometry_eq. easy.
  - destruct (decide (DonutsFolder ∈ gui_folders st)); [|easy].
    unfold onDonutColor.
    destruct (recolor_donuts_spec c (donutMeshes (set_donutColor c st))
                                  (set_donutColor c st)) as (mats & -> & _).
    easy.
Qed.

Lemma matcapTexture_run (st : State) (evs : list Event) :
  matcapTexture (run random getDelta st evs) = matcapTexture st.
Proof.
  revert st. induction evs as [|ev evs IH]; intros st; [easy|].
  cbn [run fold_left]. unfold run in IH. now rewrite IH, matcapTexture_dispatch.
Qed.

(** Once the font has failed, nothing is ever built. *)
Lemma failed_run (st : State) (evs : list Event) :
  font_loading st = false -> pristine st ->
  pristine (run random getDelta st evs) /\
  alerts (run random getDelta st evs) = alerts st.
Proof.
  revert st. induction evs as [|ev evs IH]; intros st Hl P; [easy|].
  destruct (pristine_dispatch random getDelta st ev Hl P) as (P' & Hl' & Ha').
  destruct (IH _ Hl' P') as [P'' Ha'']. cbn [run fold_left].
  split; [exact P''|]. unfold run in Ha''. congruence.
Qed.

Lemma phase_built (st : State) (t : ref) :
  phase st -> textMesh st = Some t -> running st /\ t = 0.
Proof.
  intros [_ _ P | _ _ P | R] Ht.
  - rewrite (pr_text _ P) in Ht. discriminate.
  - rewrite (pr_text _ P) in Ht. discriminate.
  - rewrite (rn_text _ R) in Ht. now simplify_eq.
Qed.

Lemma phase_donut (st : State) (d : ref) :
  phase st -> d ∈ donutMeshes st -> running st.
Proof.
  intros [_ _ P | _ _ P | R] Hd; [| |exact R].
  all: rewrite (pr_donuts _ P) in Hd; now apply elem_of_nil in Hd.
Qed.

Lemma phase_loading (st : State) :
  phase st -> font_loading st = true -> pristine st /\ alerts st = [].
Proof.
  intros [_ Ha P | Hl _ _ | R] H; [easy|congruence|].
  rewrite (rn_loading _ R) in H. discriminate.
Qed.

Lemma running_run (st : State) (evs : list Event) :
  running st -> running (run random getDelta st evs).
Proof.
  revert st. induction evs as [|ev evs IH]; intros st R; [exact R|].
  apply IH, running_dispatch, R.
Qed.

(** The font arrives: the content is built and the loop runs. *)
Lemma running_started (w : Window) (load : TextureLoad) (font : Font) :
  running (dispatch random getDelta (boot w load) (FontLoaded font)).
Proof.
  cbn [dispatch]. change (font_loading (boot w load)) with true. cbv iota.
  apply running_animate, running_handleResize, running_built; try reflexivity.
  now split.
Qed.

End Frames.


(** * The properties of the specification *)

Lemma bounce_reflected (p v : float) : reflected p v (bounce p v).
Proof.
  unfold reflected, bounce, boundary.
  destruct (Num.gt (Num.Math_abs p) 10); split; try easy.
  intros _. apply NumFacts.mul_minus_one.
Qed.

Section Claims.

Variable random : nat -> float.
Variable getDelta : nat -> float.

Local Opaque donut_count.

(** C1. In a tick of the render loop, every donut of the page is moved by
    its velocity times [deltaTime * 60], without clamping, and then on each
    axis x, y, z its velocity component has changed sign when the absolute
    value of the new position exceeds 10 and is unchanged when it does
    not. *)
Theorem animate_reflects_at_boundary
    (w : Window) (load : TextureLoad) (evs : list Event) (d : ref) (m : Mesh) :
  let st := run random getDelta (boot w load) evs in
  let deltaTime := getDelta (clock_calls st) in
  d ∈ donutMeshes st -> meshes st !! d = Some m ->
  exists v m' v',
    userData_velocity m = Some v /\
    meshes (animate getDelta st) !! d = Some m' /\
    position m' = addScaledVector (position m) v (deltaTime * 60)%float /\
    userData_velocity m' = Some v' /\
    reflected (vx (position m')) (vx v) (vx v') /\
    reflected (vy (position m')) (vy v) (vy v') /\
    reflected (vz (position m')) (vz v) (vz v').
Proof.
  intros st deltaTime Hd Hm.
  pose proof (phase_reachable random getDelta w load evs) as Hph.
  fold st in Hph. generalize dependent st. intros st deltaTime Hd Hm Hph.
  pose proof (phase_donut st d Hph Hd) as R.
  destruct (animate_spec getDelta st (running_donuts_ready st R))
    as (_ & _ & _ & _ & _ & Hin & _).
  rewrite (rn_donuts _ R) in Hd.
  destruct (rn_donutmesh _ R d Hd) as (m0 & Hm0 & _ & _ & v & Hv).
  rewrite Hm in Hm0. injection Hm0 as <-.
  specialize (Hin d m). rewrite (rn_donuts _ R) in Hin.
  specialize (Hin Hd Hm). rewrite (animate_donut_ok _ _ _ Hv) in Hin.
  cbn [snd] in Hin. fold deltaTime in Hin.
  eexists v, _, _. split; [exact Hv|]. split; [exact Hin|].
  cbn [position userData_velocity vx vy vz].
  repeat split; try apply bounce_reflected.
Qed.

(** C2. When the font load fails, nothing is built then or later: no text
    mesh, no donut, nothing in the store, only the camera in the scene; the
    render loop never starts (no frame is requested, none is drawn); and
    [alert] has been called exactly once. *)
Theorem font_failure_builds_nothing
    (w : Window) (load : TextureLoad) (pre post : list Event) (error : N) :
  let st0 := run random getDelta (boot w load) pre in
  font_loading st0 = true ->
  let st := run random getDelta (dispatch random getDelta st0 (FontError error)) post in
  textMesh st = None /\ donutMeshes st = [] /\
  meshes st = [] /\ materials st = [] /\ geometries st = [] /\
  scene_children st = [CameraObject] /\
  frame_requested st = false /\ rendered_frames st = 0 /\
  alerts st = [AlertFontFailed].
Proof.
  intros st0 Hl.
  pose proof (phase_reachable random getDelta w load pre) as Hph.
  fold st0 in Hph. generalize dependent st0. intros st0 Hl Hph st.
  destruct (phase_loading st0 Hph Hl) as [P Ha].
  assert (Hfail : dispatch random getDelta st0 (FontError error) =
                  alert AlertFontFailed
                    (console_log (ErrorFontLoading error)
                       (set_font_loading false st0)))
    by (cbn [dispatch]; now rewrite Hl).
  subst st. rewrite Hfail.
  destruct (failed_run random getDelta
              (alert AlertFontFailed
                 (console_log (ErrorFontLoading error) (set_font_loading false st0)))
              post) as [[] Ha'].
  - reflexivity.
  - now destruct P.
  - rewrite Ha'. cbn. rewrite Ha. easy.
Qed.

(** C3 does not hold when the texture file cannot be fetched: the loader
    still hands back its texture object, the [catch] never runs, and all 101
    materials are matcap materials on a texture without image; none is the
    flat-colour variant. *)
Theorem missing_texture_keeps_matcap
    (w : Window) (font : Font) (cs : ColorSpace) (evs : list Event) :
  let failed := mkTexture false cs in
  let st :=
    run random getDelta
        (dispatch random getDelta (boot w (LoadReturns failed)) (FontLoaded font))
        evs in
  length (materials st) = 101 /\
  Forall (fun m => m_kind m = MeshMatcapMaterial (mkTexture false SRGBColorSpace))
         (materials st) /\
  WarnNoMatcap ∉ console (boot w (LoadReturns failed)).
Proof.
  intros failed st.
  assert (R : running st)
    by apply running_run, running_started.
  pose proof (matcapTexture_run random getDelta
                (dispatch random getDelta (boot w (LoadReturns failed))
                          (FontLoaded font)) evs) as Htex.
  rewrite matcapTexture_dispatch in Htex. fold st in Htex.
  generalize dependent st. intros st R Htex.
  split; [exact (rn_materials _ R)|]. split.
  - eapply Forall_impl; [exact (rn_kinds _ R)|].
    intros m [Hk _]. now rewrite Hk, Htex.
  - cbn. rewrite list_elem_of_singleton. discriminate.
Qed.

Lemma filter_all {A} (f : A -> bool) (l : list A) :
  Forall (fun x => f x = true) l -> List.filter f l = l.
Proof.
  induction 1 as [|x l Hx Hl IH]; [reflexivity|].
  cbn [List.filter]. now rewrite Hx, IH.
Qed.

(** One run of the content builder adds two geometries and 101 materials,
    all of them live, and releases nothing. *)
Lemma gpu_resources_rebuild (font : Font) (st : State) :
  gpu_resources (setupSceneContent random font st) = gpu_resources st + 103.
Proof.
  destruct (setupSceneContent_spec random font st)
    as [_ _ _ _ _ Hgeo (newm & Hm & Hlm & Hfm) _ _].
  generalize dependent (setupSceneContent random font st). intros st' Hgeo Hm.
  unfold gpu_resources, live_geometries, live_materials.
  rewrite Hgeo, Hm, !List.filter_app, !length_app.
  cbn [List.filter text_geometry torus g_disposed m_disposed negb length].
  rewrite (filter_all _ newm).
  - rewrite Hlm. change donut_count with 100. lia.
  - eapply Forall_impl; [exact Hfm|]. intros m [_ ->]. reflexivity.
Qed.


(** X4. Rebuilding again and again, the live resources grow without bound. *)
Theorem rebuilds_grow (n : nat) (font : Font) (st : State) :
  gpu_resources (rebuilds random n font st) = gpu_resources st + 103 * n.
Proof.
  induction n as [|n IH]; cbn [rebuilds]; [lia|].
  rewrite gpu_resources_rebuild, IH. lia.
Qed.

Lemma remove_first_sub (o x : Object3D) (l : list Object3D) :
  x ∈ remove_first o l -> x ∈ l.
Proof.
  induction l as [|y l IH]; cbn [remove_first]; [easy|].
  destruct (decide (o = y)); [now right|].
  rewrite !elem_of_cons. intros [->|H]; [now left|right; now apply IH].
Qed.

Lemma remove_first_NoDup (o : Object3D) (l : list Object3D) :
  NoDup l -> NoDup (remove_first o l) /\ o ∉ remove_first o l.
Proof.
  induction 1 as [|y l Hy Hl [IH1 IH2]]; cbn [remove_first].
  - split; [constructor|apply not_elem_of_nil].
  - destruct (decide (o = y)) as [->|Hne]; [easy|]. split.
    + constructor; [|exact IH1]. intros H. apply Hy. eapply remove_first_sub, H.
    + rewrite not_elem_of_cons. easy.
Qed.

Lemma remove_all_sub (ds : list nat) (x : Object3D) (l : list Object3D) :
  x ∈ remove_all ds l -> x ∈ l.
Proof.
  revert l. induction ds as [|d ds IH]; intros l; [easy|].
  cbn [remove_all fold_left]. intros H. apply IH in H.
  eapply remove_first_sub, H.
Qed.

Lemma remove_all_gone (ds : list nat) (d : nat) (l : list Object3D) :
  NoDup l -> d ∈ ds -> MeshObject d ∉ remove_all ds l.
Proof.
  revert l. induction ds as [|a ds IH]; intros l Hnd Hd.
  - now apply elem_of_nil in Hd.
  - cbn [remove_all fold_left].
    destruct (remove_first_NoDup (MeshObject a) l Hnd) as [Hnd' Ha].
    apply elem_of_cons in Hd as [->|Hd].
    + intros H. apply Ha. eapply remove_all_sub, H.
    + now apply IH.
Qed.

Lemma remove_first_other (o x : Object3D) (l : list Object3D) :
  x <> o -> x ∈ l -> x ∈ remove_first o l.
Proof.
  intros Hne. induction l as [|y l IH]; cbn [remove_first]; [easy|].
  rewrite elem_of_cons. destruct (decide (o = y)) as [->|Hy].
  - now intros [->|H].
  - rewrite elem_of_cons. intros [->|H]; [now left|right; now apply IH].
Qed.

Lemma remove_all_other (ds : list nat) (x : Object3D) (l : list Object3D) :
  (forall d, d ∈ ds -> x <> MeshObject d) -> x ∈ l -> x ∈ remove_all ds l.
Proof.
  revert l. induction ds as [|a ds IH]; intros l Hds Hx; [exact Hx|].
  cbn [remove_all fold_left]. apply IH.
  - intros d Hd. apply Hds. now right.
  - apply remove_first_other; [|exact Hx]. apply Hds. now left.
Qed.

Lemma running_clears_scene (font : Font) (st : State) :
  running st ->
  let st' := setupSceneContent random font st in
  (forall d, d ∈ donutMeshes st -> MeshObject d ∉ scene_children st') /\
  MeshObject 0 ∈ scene_children st' /\
  textMesh st' = Some (S donut_count).
Proof.
  intros R st'.
  destruct (setupSceneContent_spec random font st)
    as [_ _ Ht Hd _ _ _ _ Hs].
  fold st' in Ht, Hd, Hs. generalize dependent st'. intros st' Ht Hd Hs.
  rewrite (rn_meshes _ R) in *. rewrite (rn_scene _ R), (rn_donuts _ R) in Hs.
  assert (Hbelow : Forall (mesh_object_below (S donut_count))
                     (CameraObject :: map MeshObject (seq 0 (S donut_count)))).
  { constructor; [exact I|]. apply Forall_forall. intros x Hx.
    apply list_elem_of_fmap in Hx as (r & -> & Hr).
    apply elem_of_seq in Hr. cbn. lia. }
  specialize (Hs Hbelow).
  assert (Hnd : NoDup ((CameraObject :: map MeshObject (seq 0 (S donut_count)))
                         ++ [MeshObject (S donut_count)])).
  { apply NoDup_app. repeat split.
    - constructor.
      + intros Hx. apply list_elem_of_fmap in Hx as (r & Hr & _). discriminate.
      + apply NoDup_fmap_2; [intros x y; congruence|apply NoDup_seq].
    - intros x Hx Hx'. apply list_elem_of_singleton in Hx'. subst x.
      eapply mesh_object_fresh; [exact Hbelow|exact Hx].
    - repeat constructor. apply not_elem_of_nil. }
  split; [|split].
  - intros d Hd'. rewrite (rn_donuts _ R) in Hd'. rewrite Hs.
    rewrite not_elem_of_app. split.
    + now apply remove_all_gone.
    + intros Hx. apply list_elem_of_fmap in Hx as (r & Hr & Hin).
      apply elem_of_seq in Hin, Hd'. injection Hr as ->. lia.
  - rewrite Hs. apply elem_of_app. left.
    apply remove_all_other.
    + intros d Hd' [= <-]. apply elem_of_seq in Hd'. lia.
    + apply elem_of_app. left. right.
      apply list_elem_of_fmap. exists 0. split; [reflexivity|].
      apply elem_of_seq. lia.
  - exact Ht.
Qed.


(** X3. What a rebuild does do: the donuts of the previous population leave the
    scene. The previous text mesh, object 0, stays in it, while [textMesh]
    moves on to the new one. *)
Theorem rebuild_clears_scene
    (w : Window) (load : TextureLoad) (font font' : Font) (evs : list Event) :
  let st :=
    run random getDelta
        (dispatch random getDelta (boot w load) (FontLoaded font)) evs in
  let st' := setupSceneContent random font' st in
  (forall d, d ∈ donutMeshes st -> MeshObject d ∉ scene_children st') /\
  textMesh st = Some 0 /\ MeshObject 0 ∈ scene_children st' /\
  textMesh st' = Some 101.
Proof.
  intros st.
  assert (R : running st) by apply running_run, running_started.
  generalize dependent st. intros st R st'.
  destruct (running_clears_scene font' st R) as (H1 & H2 & H3).
  split; [exact H1|]. split; [exact (rn_text _ R)|]. split; [exact H2|exact H3].
Qed.

(** C5. After any run of the content builder, in whatever state it starts,
    [donutMeshes] holds exactly 100 distinct meshes, and it still does after
    any further events. *)
Theorem donut_population_is_100 (font : Font) (st : State) (evs : list Event) :
  let st' := run random getDelta (setupSceneContent random font st) evs in
  length (donutMeshes st') = 100 /\ NoDup (donutMeshes st').
Proof.
  intros st'. subst st'. change 100 with donut_count.
  pose proof (cb_donuts _ _ _ (setupSceneContent_spec random font st)) as Hd.
  generalize dependent (setupSceneContent random font st). intros st0 Hd.
  assert (H0 : length (donutMeshes st0) = donut_count /\ NoDup (donutMeshes st0))
    by (rewrite Hd; split; [apply length_seq|apply NoDup_seq]).
  clear Hd. revert st0 H0.
  induction evs as [|ev evs IH]; intros st0 [Hlen Hnd]; [easy|].
  cbn [run fold_left]. apply IH. now apply donuts_dispatch.
Qed.

(** C6. For every text, the empty one included, [createTextGeometry] returns
    a new geometry, centred and not disposed, built with the script's options
    from a text that is never empty: the text itself, or the placeholder
    "..." when the text is empty. The geometries already in the store are
    untouched. *)
Theorem createTextGeometry_succeeds (text : JSString) (font : Font) (st : State) :
  exists shown,
    built_geometry (createTextGeometry text font st) =
      Some (mkGeometry (TextGeometry shown (text_options font)) true false) /\
    fst (createTextGeometry text font st) = length (geometries st) /\
    shown <> [] /\
    (shown = text \/ shown = js "...") /\
    (text = [] -> shown = js "...") /\
    (forall r g, geometries st !! r = Some g ->
       geometries (snd (createTextGeometry text font st)) !! r = Some g).
Proof.
  exists (geometryText text). rewrite createTextGeometry_eq.
  unfold built_geometry. cbn [fst snd set_geometries geometries].
  repeat split.
  - rewrite lookup_app_r by lia. now rewrite Nat.sub_diag.
  - unfold geometryText. destruct text as [|c text]; [easy|].
    destruct (is_empty_string (trim (c :: text))); easy.
  - unfold geometryText. destruct (is_empty_string (trim text)); [now right|now left].
  - now intros ->.
  - intros r g Hg. now apply lookup_app_l_Some.
Qed.

Lemma dispatch_TextColorPicked (c : Color) (st : State) :
  running st ->
  dispatch random getDelta st (TextColorPicked c) =
  onTextColor c (set_textColor c st).
Proof.
  intros R. cbn [dispatch].
  destruct (decide (TextFolder ∈ gui_folders st)) as [_|H]; [reflexivity|].
  exfalso. apply H. rewrite (rn_gui _ R). now left.
Qed.

Lemma dispatch_TextValueEdited (s : JSString) (st : State) :
  running st ->
  dispatch random getDelta st (TextValueEdited s) =
  onTextValue s (set_textValue s st).
Proof.
  intros R. cbn [dispatch].
  destruct (decide (TextFolder ∈ gui_folders st)) as [_|H]; [reflexivity|].
  exfalso. apply H. rewrite (rn_gui _ R). now left.
Qed.

Lemma dispatch_DonutColorPicked (c : Color) (st : State) :
  running st ->
  dispatch random getDelta st (DonutColorPicked c) =
  onDonutColor c (set_donutColor c st).
Proof.
  intros R. cbn [dispatch].
  destruct (decide (DonutsFolder ∈ gui_folders st)) as [_|H]; [reflexivity|].
  exfalso. apply H. rewrite (rn_gui _ R). right. now left.
Qed.

(** C7. With the content built: picking a text colour gives that colour to
    the material of the text mesh and changes no other material, so none of a
    donut; picking the donut colour gives it to the material of each of the
    100 donuts, which are 100 different materials, and changes no other
    material, so not the one of the text. Neither touches a mesh or a
    geometry. *)
Theorem color_pickers_reach_their_materials
    (w : Window) (load : TextureLoad) (evs : list Event) (c : Color)
    (t : ref) (mt : Mesh) :
  let st := run random getDelta (boot w load) evs in
  let text_picked := dispatch random getDelta st (TextColorPicked c) in
  let donut_picked := dispatch random getDelta st (DonutColorPicked c) in
  textMesh st = Some t -> meshes st !! t = Some mt ->
  (m_color <$> materials text_picked !! material mt = Some c /\
   (forall r, r <> material mt ->
      materials text_picked !! r = materials st !! r) /\
   meshes text_picked = meshes st /\ geometries text_picked = geometries st) /\
  (length (donutMeshes st) = 100 /\
   (forall d, d ∈ donutMeshes st ->
      exists md, meshes st !! d = Some md /\ material md <> material mt /\
                 m_color <$> materials donut_picked !! material md = Some c) /\
   (forall d d' md md', d ∈ donutMeshes st -> d' ∈ donutMeshes st ->
      meshes st !! d = Some md -> meshes st !! d' = Some md' ->
      material md = material md' -> d = d') /\
   (forall r, ~ donut_material st (donutMeshes st) r ->
      materials donut_picked !! r = materials st !! r) /\
   materials donut_picked !! material mt = materials st !! material mt /\
   meshes donut_picked = meshes st /\ geometries donut_picked = geometries st).
Proof.
  intros st.
  pose proof (phase_reachable random getDelta w load evs) as Hph. fold st in Hph.
  generalize dependent st. intros st Hph text_picked donut_picked Ht Hmt.
  destruct (phase_built st t Hph Ht) as [R ->].
  destruct (rn_textmesh _ R) as (m0 & _ & _ & Hm0 & Hmat & _).
  rewrite Hmt in Hm0. injection Hm0 as <-.
  assert (Hdonut : forall d, d ∈ donutMeshes st ->
            exists md, meshes st !! d = Some md /\ material md = d /\ 1 <= d <= donut_count).
  { intros d Hd. rewrite (rn_donuts _ R) in Hd.
    destruct (rn_donutmesh _ R d Hd) as (md & Hmd & Hmatd & _).
    exists md. apply elem_of_seq in Hd. repeat split; try easy; lia. }
  assert (Hnot : ~ donut_material st (donutMeshes st) (material mt)).
  { intros (d & md & Hd & Hmd & Heq).
    destruct (Hdonut d Hd) as (md' & Hmd' & Hmatd & Hrange).
    rewrite Hmd in Hmd'. injection Hmd' as <-. lia. }
  split.
  - subst text_picked. rewrite (dispatch_TextColorPicked c st R).
    rewrite (onTextColor_eq c (set_textColor c st) 0 mt Ht Hmt).
    cbn [set_materials set_textColor set_config materials meshes geometries].
    repeat split.
    + rewrite list_lookup_alter_eq.
      destruct (lookup_lt_is_Some_2 (materials st) (material mt)) as [x Hx];
        [rewrite (rn_materials _ R); lia|].
      now rewrite Hx.
    + intros r Hr. now apply list_lookup_alter_ne.
  - subst donut_picked. rewrite (dispatch_DonutColorPicked c st R).
    unfold onDonutColor.
    destruct (recolor_donuts_spec c (donutMeshes (set_donutColor c st))
                                  (set_donutColor c st))
      as (mats & -> & Hlen & Hin & Hout).
    cbn [set_materials set_donutColor set_config materials meshes geometries
         donutMeshes] in *.
    change (donut_material (set_config _ st)) with (donut_material st) in Hin, Hout.
    repeat split.
    + rewrite (rn_donuts _ R). apply length_seq.
    + intros d Hd. destruct (Hdonut d Hd) as (md & Hmd & Hmatd & Hrange).
      exists md. repeat split; [exact Hmd|lia|].
      rewrite Hin by (now exists d, md).
      destruct (lookup_lt_is_Some_2 (materials st) (material md)) as [x Hx];
        [rewrite (rn_materials _ R); lia|].
      now rewrite Hx.
    + intros d d' md md' Hd Hd' Hmd Hmd' Heq.
      destruct (Hdonut d Hd) as (m1 & Hm1 & Hmat1 & _).
      destruct (Hdonut d' Hd') as (m2 & Hm2 & Hmat2 & _).
      congruence.
    + exact Hout.
    + now apply Hout.
Qed.

Lemma filter_none {A} (f : A -> bool) (l : list A) :
  Forall (fun x => f x = false) l -> List.filter f l = [].
Proof.
  induction 1 as [|x l Hx Hl IH]; [reflexivity|].
  cbn [List.filter]. now rewrite Hx, IH.
Qed.

Lemma running_text_objects (st : State) :
  running st -> text_objects st = [MeshObject 0].
Proof.
  intros R. unfold text_objects. rewrite (rn_scene _ R).
  cbn [seq map List.filter is_text_object].
  destruct (rn_textmesh _ R) as (m & text & font & -> & _ & _ & _ & ->).
  cbn [text_geometry]. f_equal.
  apply filter_none, Forall_forall. intros o Ho.
  apply list_elem_of_fmap in Ho as (d & -> & Hd).
  destruct (rn_donutmesh _ R d Hd) as (md & Hmd & _ & Hg & _).
  cbn [is_text_object]. now rewrite Hmd, Hg, (rn_torus _ R).
Qed.

(** C8. With the content built, the scene holds exactly one text object, the
    mesh of [textMesh]. An edit of the text disposes the geometry of that
    mesh and gives the same mesh a new geometry, built from the new text; the
    scene, the mesh's other fields and the materials stay. A pick of the text
    colour sets the colour of the mesh's material and leaves every mesh and
    every geometry as it was. *)
Theorem one_text_object_edited_in_place
    (w : Window) (load : TextureLoad) (evs : list Event) (t : ref) :
  let st := run random getDelta (boot w load) evs in
  textMesh st = Some t ->
  text_objects st = [MeshObject t] /\
  exists m old font,
    meshes st !! t = Some m /\ geometries st !! geometry m = Some old /\
    loadedFont st = Some font /\
    (forall s,
       let st' := dispatch random getDelta st (TextValueEdited s) in
       textMesh st' = Some t /\ text_objects st' = [MeshObject t] /\
       scene_children st' = scene_children st /\
       length (meshes st') = length (meshes st) /\
       meshes st' !! t = Some (with_geometry (length (geometries st)) m) /\
       geometries st' !! geometry m = Some (released old) /\
       geometries st' !! length (geometries st) = Some (text_geometry s font) /\
       materials st' = materials st) /\
    (forall c,
       let st' := dispatch random getDelta st (TextColorPicked c) in
       textMesh st' = Some t /\ text_objects st' = [MeshObject t] /\
       scene_children st' = scene_children st /\
       meshes st' = meshes st /\ geometries st' = geometries st /\
       m_color <$> materials st' !! material m = Some c).
Proof.
  intros st.
  pose proof (phase_reachable random getDelta w load evs) as Hph. fold st in Hph.
  generalize dependent st. intros st Hph Ht.
  destruct (phase_built st t Hph Ht) as [R ->].
  split; [now apply running_text_objects|].
  destruct (rn_textmesh _ R) as (m & text & f0 & Hm & Hmat & _ & Hne & Hg).
  destruct (rn_font _ R) as [font Hf].
  exists m, (text_geometry text f0), font.
  split; [exact Hm|]. split; [exact Hg|]. split; [exact Hf|]. split.
  - intros s st'.
    assert (R' : running st') by now apply running_dispatch.
    split; [exact (rn_text _ R')|].
    split; [now apply running_text_objects|].
    subst st'. clear R'. rewrite (dispatch_TextValueEdited s st R).
    rewrite (onTextValue_eq s (set_textValue s st) 0 font m Ht Hf Hm).
    cbn [set_meshes set_geometries set_textValue set_config scene_children meshes
         geometries materials].
    pose proof (lookup_lt_Some _ _ _ Hg) as Hlt.
    repeat split.
    + apply length_alter.
    + now rewrite list_lookup_alter_eq, Hm.
    + rewrite lookup_app_l by now rewrite length_alter.
      now rewrite list_lookup_alter_eq, Hg.
    + rewrite lookup_app_r by (rewrite length_alter; lia).
      now rewrite length_alter, Nat.sub_diag.
  - intros c st'.
    assert (R' : running st') by now apply running_dispatch.
    split; [exact (rn_text _ R')|].
    split; [now apply running_text_objects|].
    subst st'. clear R'. rewrite (dispatch_TextColorPicked c st R).
    rewrite (onTextColor_eq c (set_textColor c st) 0 m Ht Hm).
    cbn [set_materials set_textColor set_config scene_children meshes
         geometries materials].
    repeat split.
    rewrite list_lookup_alter_eq.
    destruct (lookup_lt_is_Some_2 (materials st) (material m)) as [x Hx];
      [rewrite (rn_materials _ R); lia|].
    now rewrite Hx.
Qed.

(** C9. On a 'resize' event the camera's aspect becomes the new width
    divided by the new height, the renderer takes the new width and height,
    and its pixel ratio becomes [Math.min(devicePixelRatio, 2)], which never
    exceeds 2. *)
Theorem resize_updates_camera_and_renderer (st : State) (w : Window) :
  let st' := dispatch random getDelta st (Resize w) in
  camera_aspect st' = (innerWidth w / innerHeight w)%float /\
  camera_projection st' = camera_aspect st' /\
  renderer_size st' = (innerWidth w, innerHeight w) /\
  renderer_pixelRatio st' = Num.Math_min (devicePixelRatio w) 2 /\
  Num.gt (renderer_pixelRatio st') 2 = false.
Proof.
  cbn. repeat split. apply NumFacts.Math_min_two_capped.
Qed.

(** C10. The placeholder is used exactly when the text trims to the empty
    string, that is, when it holds white space only: such a text is built as
    "...", gives the very result the empty string gives, and any other text
    is built as it is. *)
Theorem whitespace_text_uses_placeholder (text : JSString) (font : Font) (st : State) :
  (is_empty_string (trim text) = true <-> forallb is_white_space text = true) /\
  built_geometry (createTextGeometry text font st) =
    Some (mkGeometry
            (TextGeometry (if forallb is_white_space text then js "..." else text)
                          (text_options font))
            true false) /\
  (forallb is_white_space text = true ->
     createTextGeometry text font st = createTextGeometry [] font st).
Proof.
  pose proof (trim_empty text) as Htrim.
  split; [exact Htrim|].
  rewrite !createTextGeometry_eq. unfold built_geometry, text_geometry, geometryText.
  cbn [fst snd set_geometries geometries].
  rewrite lookup_app_r by lia. rewrite Nat.sub_diag. cbn [lookup list_lookup].
  destruct (forallb is_white_space text) eqn:E.
  - destruct Htrim as [_ ->]; [|reflexivity]. split; [reflexivity|].
    intros _. reflexivity.
  - destruct (is_empty_string (trim text)) eqn:E'.
    + destruct Htrim as [Ht _]. now specialize (Ht eq_refl).
    + split; [reflexivity|discriminate].
Qed.

(** ** Further properties *)

(** X1. The fallback that the script does have: when [textureLoader.load] itself
    throws, the warning is logged and all 101 materials are flat-colour
    materials. *)
Theorem thrown_texture_load_falls_back
    (w : Window) (font : Font) (evs : list Event) :
  let st :=
    run random getDelta
        (dispatch random getDelta (boot w LoadThrows) (FontLoaded font)) evs in
  length (materials st) = 101 /\
  Forall (fun m => m_kind m = MeshBasicMaterial) (materials st) /\
  WarnNoMatcap ∈ console (boot w LoadThrows).
Proof.
  intros st.
  assert (R : running st) by apply running_run, running_started.
  pose proof (matcapTexture_run random getDelta
                (dispatch random getDelta (boot w LoadThrows) (FontLoaded font))
                evs) as Htex.
  rewrite matcapTexture_dispatch in Htex. fold st in Htex.
  generalize dependent st. intros st R Htex.
  split; [exact (rn_materials _ R)|]. split.
  - eapply Forall_impl; [exact (rn_kinds _ R)|].
    intros m [Hk _]. now rewrite Hk, Htex.
  - cbn. right. now left.
Qed.

(** X2. With the content built, a run of [animate] raises no exception: it draws
    one frame and requests the next, so the loop goes on. *)
Theorem render_loop_goes_on
    (w : Window) (load : TextureLoad) (font : Font) (evs : list Event) :
  let st :=
    run random getDelta
        (dispatch random getDelta (boot w load) (FontLoaded font)) evs in
  frame_requested (animate getDelta st) = true /\
  rendered_frames (animate getDelta st) = S (rendered_frames st) /\
  length (meshes (animate getDelta st)) = length (meshes st).
Proof.
  intros st.
  assert (R : running st) by apply running_run, running_started.
  generalize dependent st. intros st R.
  destruct (animate_spec getDelta st (running_donuts_ready st R))
    as (_ & Hf & Hr & _ & Hl & _).
  easy.
Qed.

(** ** The population that the builder creates *)

Lemma create_donut_exact (donutGeometry : ref) (st : State) (i : nat) :
  meshes (create_donut random donutGeometry st i) =
    meshes st ++ [donut_of_draws random donutGeometry (length (materials st))
                                 (random_calls st)] /\
  materials (create_donut random donutGeometry st i) =
    materials st ++ [donut_material_of (matcapTexture st) i].
Proof.
  unfold create_donut. rewrite new_material_eq. split; reflexivity.
Qed.

Lemma donut_loop_exact (donutGeometry : ref) (a n : nat) (st0 : State) :
  meshes (fold_left (create_donut random donutGeometry) (seq a n) st0) =
    meshes st0
      ++ map (fun k => donut_of_draws random donutGeometry
                         (length (materials st0) + k) (random_calls st0 + 9 * k))
             (seq 0 n) /\
  materials (fold_left (create_donut random donutGeometry) (seq a n) st0) =
    materials st0
      ++ map (fun k => donut_material_of (matcapTexture st0) (a + k)) (seq 0 n).
Proof.
  induction n as [|n [IHm IHt]].
  - cbn. now rewrite !app_nil_r.
  - pose proof (donut_loop_spec random donutGeometry a n st0)
      as [Ho Hr _ _ (newm & Hm & Hlm & _) _].
    rewrite !seq_S, fold_left_app, !map_app. cbn [fold_left map].
    generalize dependent
      (fold_left (create_donut random donutGeometry) (seq a n) st0).
    intros st IHm IHt Ho Hr Hm.
    unfold outside_donut_loop in Ho. split_pairs Ho.
    assert (Hlen : length (materials st) = length (materials st0) + n)
      by (rewrite Hm, length_app; lia).
    destruct (create_donut_exact donutGeometry st (a + n)) as [-> ->].
    rewrite Hlen, Hr, IHm, IHt, <- !app_assoc. cbn [Nat.add].
    replace (random_calls st0 + 9 * n) with (9 * n + random_calls st0) by lia.
    replace (matcapTexture st) with (matcapTexture st0) by congruence.
    split; reflexivity.
Qed.

Lemma lookup_map_seq {A} (f : nat -> A) (n k : nat) :
  k < n -> map f (seq 0 n) !! k = Some (f k).
Proof.
  intros Hk. change (map f (seq 0 n)) with (f <$> seq 0 n).
  now rewrite list_lookup_fmap, lookup_seq_lt.
Qed.

Lemma setupSceneContent_exact (font : Font) (st : State) :
  let st' := setupSceneContent random font st in
  meshes st' =
    meshes st
      ++ Mesh_new (length (geometries st)) (length (materials st))
      :: map (fun k => donut_of_draws random (S (length (geometries st)))
                         (S (length (materials st)) + k)
                         (random_calls st + 9 * k))
             (seq 0 donut_count) /\
  materials st' =
    materials st
      ++ mkMaterial (material_variant (matcapTexture st)) (textColor (config st))
                    false
      :: map (donut_material_of (matcapTexture st)) (seq 0 donut_count) /\
  random_calls st' = random_calls st + 9 * donut_count.
Proof.
  unfold setupSceneContent.
  rewrite new_material_eq, createTextGeometry_eq.
  cbn [alloc_mesh alloc_geometry].
  rewrite scene_remove_all.
  match goal with
  | |- context [fold_left (create_donut random ?dg) (seq 0 donut_count) ?s] =>
      remember s as s0 eqn:E0; remember dg as dg0 eqn:Edg;
      pose proof (donut_loop_exact dg0 0 donut_count s0) as [Hm Ht];
      pose proof (ds_random _ _ _ _ (donut_loop_spec random dg0 0 donut_count s0))
        as Hr;
      generalize dependent
        (fold_left (create_donut random dg0) (seq 0 donut_count) s0);
      intros st1 Hm Ht Hr
  end.
  assert (Edg' : dg0 = S (length (geometries st)))
    by (subst dg0; cbn; rewrite length_app; cbn; lia).
  assert (Emesh : meshes s0 =
                  meshes st ++ [Mesh_new (length (geometries st))
                                         (length (materials st))])
    by (subst s0; reflexivity).
  assert (Emat : materials s0 =
                 materials st ++ [mkMaterial (material_variant (matcapTexture st))
                                             (textColor (config st)) false])
    by (subst s0; reflexivity).
  assert (Htex : matcapTexture s0 = matcapTexture st) by (subst s0; reflexivity).
  assert (Hrc : random_calls s0 = random_calls st) by (subst s0; reflexivity).
  clear E0 Edg. subst dg0.
  rewrite Emesh, Emat, Hrc in Hm. rewrite Emat, Htex in Ht.
  rewrite Hrc in Hr.
  rewrite length_app in Hm. cbn [length] in Hm.
  cbn [set_gui_folders meshes materials random_calls].
  rewrite Hm, Ht, Hr, <- !app_assoc. cbn [app].
  split; [|split; [reflexivity|lia]].
  do 2 f_equal. apply map_ext. intros k. f_equal. lia.
Qed.

(** X6. The population, as built from any state: donut [k] of the loop
    (counted from 0) is the mesh made from the draws [9k] to [9k + 8] of
    [Math.random()] since the call, on the one shared torus geometry, with a
    material of its own in the rainbow colour [k % 7]; the builder draws 900
    numbers in all. *)
Theorem population_as_drawn (font : Font) (st : State) (k : nat) :
  let st' := setupSceneContent random font st in
  k < 100 ->
  exists donut,
    donutMeshes st' !! k = Some donut /\
    meshes st' !! donut =
      Some (donut_of_draws random (S (length (geometries st)))
                           (S (length (materials st)) + k)
                           (random_calls st + 9 * k)) /\
    materials st' !! (S (length (materials st)) + k) =
      Some (mkMaterial (material_variant (matcapTexture st))
                       (nth (k mod 7) donutColors 0%N) false) /\
    geometries st' !! S (length (geometries st)) = Some torus /\
    random_calls st' = random_calls st + 900.
Proof.
  intros st' Hk. change 100 with donut_count in Hk.
  destruct (setupSceneContent_exact font st) as (Hm & Ht & Hr).
  pose proof (setupSceneContent_spec random font st) as [_ _ _ Hd _ Hg _ _ _].
  fold st' in Hm, Ht, Hr, Hd, Hg. generalize dependent st'.
  intros st' Hm Ht Hr Hd Hg.
  exists (S (length (meshes st)) + k).
  rewrite Hd, Hm, Ht, Hg, Hr.
  split; [apply lookup_seq_lt; exact Hk|].
  split; [|split; [|split]].
  - rewrite lookup_app_r by lia.
    replace (S (length (meshes st)) + k - length (meshes st)) with (S k) by lia.
    cbn [lookup list_lookup].
    etransitivity; [apply lookup_map_seq; exact Hk|reflexivity].
  - rewrite lookup_app_r by lia.
    replace (S (length (materials st)) + k - length (materials st)) with (S k)
      by lia.
    cbn [lookup list_lookup].
    etransitivity; [apply lookup_map_seq; exact Hk|reflexivity].
  - rewrite lookup_app_r by lia.
    replace (S (length (geometries st)) - length (geometries st)) with 1 by lia.
    reflexivity.
  - change donut_count with 100. lia.
Qed.

(** X18. The text as built from any state, first build or rebuild: the new
    text mesh sits at the origin on a geometry made from [config.textValue]
    and a material in the colour [config.textColor], so a rebuild keeps the
    text and the text colour of the panel (while the donuts are rainbow
    again), and the configuration is not changed. The loop meant to clear the
    panel destroys only the folders at the positions 0, 2, 4, ...: the panel
    is then every second old folder followed by the new Text and Donuts, which
    is these two after the first build and Donuts, Text, Donuts after a
    rebuild. *)
Theorem text_built_from_config (font : Font) (st : State) :
  let st' := setupSceneContent random font st in
  exists text,
    textMesh st' = Some text /\
    meshes st' !! text =
      Some (Mesh_new (length (geometries st)) (length (materials st))) /\
    geometries st' !! length (geometries st) =
      Some (text_geometry (textValue (config st)) font) /\
    materials st' !! length (materials st) =
      Some (mkMaterial (material_variant (matcapTexture st))
                       (textColor (config st)) false) /\
    loadedFont st' = Some font /\ config st' = config st /\
    gui_folders st' =
      every_second (gui_folders st) ++ [TextFolder; DonutsFolder] /\
    (gui_folders st = [] -> gui_folders st' = [TextFolder; DonutsFolder]) /\
    (gui_folders st = [TextFolder; DonutsFolder] ->
     gui_folders st' = [DonutsFolder; TextFolder; DonutsFolder]).
Proof.
  intros st'.
  destruct (setupSceneContent_exact font st) as (Hm & Ht & _).
  pose proof (setupSceneContent_spec random font st) as [Ho Hf Htm _ Hgui Hg _ _ _].
  fold st' in Hm, Ht, Ho, Hf, Htm, Hgui, Hg. generalize dependent st'.
  intros st' Hm Ht Ho Hf Htm Hgui Hg.
  unfold outside_builder in Ho. split_pairs Ho.
  exists (length (meshes st)). rewrite Hm, Ht, Hg, Hgui.
  split; [exact Htm|].
  split; [now rewrite list_lookup_middle|].
  split; [now rewrite lookup_app_r, Nat.sub_diag by lia|].
  split; [now rewrite list_lookup_middle|].
  split; [exact Hf|]. split; [assumption|].
  split; [reflexivity|]. split; intros ->; reflexivity.
Qed.

(** ** What a tick keeps *)

Lemma float_opp_involutive (v : float) : (- - v)%float = v.
Proof.
  apply Prim2SF_inj. rewrite !opp_spec.
  destruct (Prim2SF v) as [s | s | | s m e]; cbn [SFopp];
    now rewrite ?negb_involutive.
Qed.

Lemma float_abs_opp (v : float) : abs (- v)%float = abs v.
Proof.
  apply Prim2SF_inj. rewrite !abs_spec, opp_spec.
  now destruct (Prim2SF v).
Qed.

(** A bounce changes the direction at most, never the speed. *)
Lemma bounce_speed (p v : float) : abs (bounce p v) = abs v.
Proof.
  unfold bounce. destruct (Num.gt (Num.Math_abs p) boundary); [|reflexivity].
  now rewrite NumFacts.mul_minus_one, float_abs_opp.
Qed.

Lemma donut_kept_refl (m : Mesh) :
  is_Some (userData_velocity m) -> donut_kept m m.
Proof. intros [v Hv]. split; try reflexivity. now exists v, v. Qed.

Lemma donut_kept_animate (deltaTime : float) (m0 m : Mesh) :
  donut_kept m0 m -> donut_kept m0 (snd (animate_donut deltaTime m)).
Proof.
  intros [Hg Hm Hs Hz (v0 & v & Hv0 & Hv & Hx & Hy & Hzz)].
  rewrite (animate_donut_ok _ _ _ Hv). cbn [snd].
  split; cbn [geometry material scale rotation vz]; try assumption.
  eexists v0, _. split; [exact Hv0|]. split; [reflexivity|].
  unfold same_speed. cbn [vx vy vz]. now rewrite !bounce_speed.
Qed.

(** ** The page before and after the build *)

Lemma fresh_boot (w : Window) (load : TextureLoad) : fresh (boot w load).
Proof. now repeat split. Qed.

Lemma textMesh_started (font : Font) (st : State) :
  textMesh (animate getDelta (handleResize (setupSceneContent random font st)))
  = Some (length (meshes st)).
Proof.
  pose proof (animate_outside getDelta
                (handleResize (setupSceneContent random font st))) as Ha.
  unfold outside_animate in Ha. split_pairs Ha.
  pose proof (handleResize_outside (setupSceneContent random font st)) as Hr.
  unfold outside_resize in Hr. split_pairs Hr.
  pose proof (cb_text _ _ _ (setupSceneContent_spec random font st)).
  congruence.
Qed.

(** Before the build, an event either is the arrival of the awaited font or
    leaves the page unbuilt. *)
Lemma fresh_dispatch (st : State) (ev : Event) :
  fresh st ->
  (exists font, ev = FontLoaded font /\ font_loading st = true) \/
  (fresh (dispatch random getDelta st ev) /\
   textMesh (dispatch random getDelta st ev) = None).
Proof.
  intros [P Hr Hc].
  pose proof (pr_frame _ P) as Hf. pose proof (pr_text _ P) as Ht.
  pose proof (pristine_no_folder st TextFolder P) as HT.
  pose proof (pristine_no_folder st DonutsFolder P) as HD.
  assert (Hsame : fresh st /\ textMesh st = None) by (split; [now split|exact Ht]).
  destruct ev; cbn [dispatch]; rewrite ?Hf.
  - destruct (font_loading st); [left; now exists f|now right].
  - right. destruct (font_loading st); [|exact Hsame].
    split; [|exact Ht]. split; [now destruct P|exact Hr|exact Hc].
  - right. split; [|exact Ht].
    split; [|exact Hr|exact Hc]. apply pristine_handleResize. now destruct P.
  - now right.
  - right. now destruct (decide (TextFolder ∈ gui_folders st)).
  - right. now destruct (decide (TextFolder ∈ gui_folders st)).
  - right. now destruct (decide (DonutsFolder ∈ gui_folders st)).
Qed.

Lemma initial_donut_velocity (k : nat) :
  is_Some (userData_velocity (initial_donut random k)).
Proof. now eexists. Qed.

(** The build, followed by [handleResize] and the first run of [animate],
    settles the page. *)
Lemma settled_started (font : Font) (st0 : State) :
  fresh st0 -> font_loading st0 = true -> alerts st0 = [] ->
  settled random (dispatch random getDelta st0 (FontLoaded font)).
Proof.
  intros [P Hr0 Hc0] Hl Ha0. cbn [dispatch]. rewrite Hl.
  set (s := console_log LogFontLoaded (set_font_loading false st0)).
  assert (Ps : pristine s) by now destruct P.
  destruct (setupSceneContent_exact font s) as (Hm & Ht & _).
  pose proof (setupSceneContent_spec random font s)
    as [Ho Hf _ _ _ Hg _ _ _].
  pose proof (running_built random font s Ps eq_refl Ha0) as RB.
  replace (meshes s) with (@nil Mesh) in Hm by (symmetry; apply (pr_meshes _ Ps)).
  replace (materials s) with (@nil Material) in Hm, Ht
    by (symmetry; apply (pr_materials _ Ps)).
  replace (geometries s) with (@nil Geometry) in Hm, Hg
    by (symmetry; apply (pr_geometries _ Ps)).
  replace (random_calls s) with 0 in Hm by (symmetry; exact Hr0).
  assert (Hfr : rendered_frames s = 0) by apply (pr_frames _ Ps).
  assert (Hck : clock_calls s = 0) by exact Hc0.
  unfold outside_builder in Ho. split_pairs Ho.
  generalize dependent (setupSceneContent random font s). intros B. intros.
  clearbody s.
  pose proof (running_handleResize B RB) as RH.
  pose proof (handleResize_outside B) as Hres.
  unfold outside_resize in Hres. split_pairs Hres.
  generalize dependent (handleResize B). intros H. intros.
  destruct (animate_spec getDelta H (running_donuts_ready H RH))
    as (Han & Hfq & Hrf & Hcc & _ & Hin & Hout).
  unfold outside_animate in Han. split_pairs Han.
  generalize dependent (animate getDelta H). intros A. intros.
  cbn [length app Nat.add] in *.
  assert (HmH : meshes H = Mesh_new 0 0 ::
            map (fun k => donut_of_draws random 1 (S k) (9 * k)) (seq 0 donut_count))
    by congruence.
  assert (HdH : donutMeshes H = seq 1 donut_count) by apply (rn_donuts _ RH).
  split.
  - intros k Hk.
    assert (Hk' : meshes H !! S k = Some (initial_donut random k)).
    { rewrite HmH. cbn [lookup list_lookup]. now apply lookup_map_seq. }
    eexists. split.
    + apply Hin; [|exact Hk']. rewrite HdH. apply elem_of_seq. lia.
    + apply donut_kept_animate, donut_kept_refl, initial_donut_velocity.
  - exists 0, font, (mkMaterial (material_variant (matcapTexture s))
                                (textColor (config s)) false).
    rewrite Hout by (rewrite HdH, elem_of_seq; lia).
    rewrite HmH. repeat split; try congruence.
    + transport A. transport H. rewrite Hg.
      replace (config B) with (config s) by congruence. reflexivity.
    + transport A. transport H. now rewrite Ht.
    + cbn. congruence.
  - left. intros k Hk. transport A. transport H. rewrite Ht.
    etransitivity;
      [apply (f_equal (fmap m_color)), (lookup_map_seq _ donut_count k Hk)
      |reflexivity].
  - unfold live_geometries. transport A. transport H. now rewrite Hg.
  - split; [congruence|lia].
  - exact Hfq.
Qed.

Lemma live_alter_released (l : list Geometry) (i : nat) (x : Geometry) :
  l !! i = Some x -> g_disposed x = false ->
  S (length (List.filter (fun g => negb (g_disposed g)) (alter released i l)))
  = length (List.filter (fun g => negb (g_disposed g)) l).
Proof.
  revert i. induction l as [|y l IH]; intros [|i] Hx Hd; try discriminate.
  - injection Hx as ->. cbn. now rewrite Hd.
  - cbn [alter list_alter List.filter]. cbn in Hx.
    destruct (negb (g_disposed y)); cbn [length]; now rewrite (IH i Hx Hd).
Qed.

Lemma settled_animate (st : State) :
  running st -> settled random st ->
  settled random (animate getDelta (set_frame_requested false st)).
Proof.
  intros R [Sd (g & font & mat & Hm0 & Hfont & Hgeo & Hmat & Hcol) Sc Sl [Sf Sk] _].
  assert (R' : running (set_frame_requested false st)) by now destruct R.
  destruct (animate_spec getDelta _ (running_donuts_ready _ R'))
    as (Han & Hfq & Hrf & Hcc & _ & Hin & Hout).
  unfold outside_animate in Han. split_pairs Han.
  generalize dependent (animate getDelta (set_frame_requested false st)).
  intros A. intros.
  cbn [set_frame_requested scene_children loadedFont textMesh donutMeshes config
       matcapTexture sizes camera_aspect camera_projection renderer_size
       renderer_pixelRatio geometries materials gui_folders font_loading alerts
       console random_calls window meshes rendered_frames clock_calls] in *.
  pose proof (rn_donuts _ R) as Hd.
  split.
  - intros k Hk. destruct (Sd k Hk) as (m & Hm & Hkept).
    eexists. split.
    + apply Hin; [|exact Hm]. rewrite Hd. apply elem_of_seq. lia.
    + now apply donut_kept_animate.
  - exists g, font, mat. rewrite Hout by (rewrite Hd, elem_of_seq; lia).
    repeat split; congruence.
  - destruct Sc as [Sc|Sc]; [left|right]; intros k Hk; transport A; now apply Sc.
  - unfold live_geometries. now transport A.
  - split; [congruence|lia].
  - exact Hfq.
Qed.

Lemma settled_dispatch (st : State) (ev : Event) :
  running st -> settled random st ->
  settled random (dispatch random getDelta st ev).
Proof.
  intros R S.
  pose proof (rn_loading _ R) as Hl. pose proof (rn_text _ R) as Ht.
  destruct ev.
  - cbn [dispatch]. now rewrite Hl.
  - cbn [dispatch]. now rewrite Hl.
  - cbn [dispatch]. now destruct S.
  - cbn [dispatch]. rewrite (se_loop _ _ S). now apply settled_animate.
  - rewrite (dispatch_TextColorPicked c st R).
    destruct S as [Sd (g & font & mat & Hm0 & Hfont & Hgeo & Hmat & Hcol) Sc Sl Sf Sq].
    rewrite (onTextColor_eq c (set_textColor c st) 0 _ Ht Hm0).
    cbn [Mesh_new material].
    split; cbn [set_materials set_textColor set_config meshes loadedFont geometries
                materials config textColor textValue donutColor rendered_frames
                clock_calls frame_requested]; try assumption.
    + exists g, font, (recolor c mat). repeat split; try assumption.
      now rewrite list_lookup_alter_eq, Hmat.
    + destruct Sc as [Sc|Sc]; [left|right]; intros k Hk;
        (rewrite list_lookup_alter_ne by lia); now apply Sc.
  - rewrite (dispatch_TextValueEdited s st R).
    destruct S as [Sd (g & font & mat & Hm0 & Hfont & Hgeo & Hmat & Hcol) Sc Sl Sf Sq].
    rewrite (onTextValue_eq s (set_textValue s st) 0 font _ Ht Hfont Hm0).
    cbn [Mesh_new geometry].
    pose proof (lookup_lt_Some _ _ _ Hgeo) as Hlt.
    split; cbn [set_meshes set_geometries set_textValue set_config meshes
                loadedFont geometries materials config textColor textValue
                donutColor rendered_frames clock_calls frame_requested];
      try assumption.
    + intros k Hk. rewrite list_lookup_alter_ne by lia. now apply Sd.
    + exists (length (geometries st)), font, mat.
      rewrite list_lookup_alter_eq, Hm0. repeat split; try assumption.
      rewrite lookup_app_r by (rewrite length_alter; lia).
      now rewrite length_alter, Nat.sub_diag.
    + unfold live_geometries in *.
      cbn [set_meshes set_geometries geometries].
      rewrite List.filter_app, length_app.
      pose proof (live_alter_released _ _ _ Hgeo eq_refl) as Hlive.
      cbn [List.filter text_geometry g_disposed negb length]. lia.
  - rewrite (dispatch_DonutColorPicked c st R). unfold onDonutColor.
    destruct (recolor_donuts_spec c (donutMeshes (set_donutColor c st))
                                  (set_donutColor c st))
      as (mats & -> & Hlen & Hin & Hout).
    cbn [set_donutColor set_config materials meshes donutMeshes] in Hlen, Hin, Hout.
    change (donut_material (set_config _ st)) with (donut_material st) in Hin, Hout.
    destruct S as [Sd (g & font & mat & Hm0 & Hfont & Hgeo & Hmat & Hcol) Sc Sl Sf Sq].
    assert (Hdm : forall k, k < donut_count ->
              donut_material st (donutMeshes st) (S k)).
    { intros k Hk. destruct (Sd k Hk) as (m & Hm & [_ Hmk _ _ _]).
      exists (S k), m. rewrite (rn_donuts _ R), elem_of_seq.
      repeat split; [lia|lia|exact Hm|exact Hmk]. }
    assert (Hn0 : ~ donut_material st (donutMeshes st) 0).
    { intros (d & m & Hd & Hm & Hmat0).
      rewrite (rn_donuts _ R) in Hd.
      destruct (rn_donutmesh _ R d Hd) as (m' & Hm' & Hmd & _).
      apply elem_of_seq in Hd. rewrite Hm in Hm'. injection Hm' as <-. lia. }
    split; cbn [set_materials set_donutColor set_config meshes loadedFont
                geometries materials config textColor textValue donutColor
                rendered_frames clock_calls frame_requested]; try assumption.
    + exists g, font, mat. rewrite (Hout 0 Hn0). repeat split; assumption.
    + right. intros k Hk. rewrite (Hin _ (Hdm k Hk)).
      destruct (lookup_lt_is_Some_2 (materials st) (S k)) as [x Hx];
        [rewrite (rn_materials _ R); lia|].
      now rewrite Hx.
Qed.

(** Every state of the page is unbuilt and untouched, or built and settled. *)
Lemma reachable_cases (w : Window) (load : TextureLoad) (evs : list Event) :
  let st := run random getDelta (boot w load) evs in
  (fresh st /\ textMesh st = None /\ phase st) \/
  (running st /\ settled random st).
Proof.
  induction evs as [|ev evs IH] using rev_ind.
  - left. split; [apply fresh_boot|]. split; [reflexivity|apply phase_boot].
  - unfold run in *. rewrite fold_left_app. cbn [fold_left].
    generalize dependent (fold_left (dispatch random getDelta) evs (boot w load)).
    intros st [(F & Ht & Hph)|[R Hs]].
    + destruct (fresh_dispatch st ev F) as [(font & -> & Hl)|[F' Ht']].
      * destruct (phase_loading st Hph Hl) as [P Ha].
        right. split; [|now apply settled_started].
        cbn [dispatch]. rewrite Hl.
        apply running_animate, running_handleResize, running_built; try easy.
        now destruct P.
      * left. split; [exact F'|]. split; [exact Ht'|]. now apply phase_dispatch.
    + right. split; [now apply running_dispatch|now apply settled_dispatch].
Qed.

Lemma reachable_built (w : Window) (load : TextureLoad) (evs : list Event)
      (t : ref) :
  let st := run random getDelta (boot w load) evs in
  textMesh st = Some t -> running st /\ settled random st /\ t = 0.
Proof.
  intros st Ht. destruct (reachable_cases w load evs) as [(_ & Hn & _)|[R Hs]].
  - fold st in Hn. congruence.
  - fold st in R, Hs. split; [exact R|]. split; [exact Hs|].
    rewrite (rn_text _ R) in Ht. congruence.
Qed.

(** X7. Whatever happens after the build, donut [k] keeps the geometry, the
    material, the scale, the rotation about z and, on each axis, the speed it
    was created with: a bounce changes the sign of a velocity component and
    nothing else does. *)
Theorem donuts_keep_their_making
    (w : Window) (load : TextureLoad) (evs : list Event) (t : ref) (k : nat) :
  let st := run random getDelta (boot w load) evs in
  textMesh st = Some t -> k < 100 ->
  exists d m,
    donutMeshes st !! k = Some d /\ meshes st !! d = Some m /\
    donut_kept (initial_donut random k) m.
Proof.
  intros st Ht Hk. change 100 with donut_count in Hk.
  destruct (reachable_built w load evs t Ht) as (R & Hs & _). fold st in R, Hs.
  generalize dependent st. intros st _ R Hs.
  destruct (se_donuts _ _ Hs k Hk) as (m & Hm & Hkept).
  exists (S k), m. rewrite (rn_donuts _ R).
  split; [now apply lookup_seq_lt|]. easy.
Qed.

(** X8. The text mesh is never moved: in every state after the build it sits
    at the origin, unrotated, at scale 1, without a velocity, and it is none
    of the donuts. *)
Theorem text_mesh_stays_put
    (w : Window) (load : TextureLoad) (evs : list Event) (t : ref) :
  let st := run random getDelta (boot w load) evs in
  textMesh st = Some t ->
  exists m,
    meshes st !! t = Some m /\
    position m = mkVector3 0 0 0 /\ rotation m = mkVector3 0 0 0 /\
    scale m = mkVector3 1 1 1 /\ userData_velocity m = None /\
    t ∉ donutMeshes st.
Proof.
  intros st Ht.
  destruct (reachable_built w load evs t Ht) as (R & Hs & ->). fold st in R, Hs.
  generalize dependent st. intros st _ R Hs.
  destruct (se_text _ _ Hs) as (g & font & mat & Hm & _).
  exists (Mesh_new g 0). split; [exact Hm|]. repeat split.
  rewrite (rn_donuts _ R), elem_of_seq. lia.
Qed.

(** X9. The panel and the scene agree: in every state after the build, the
    geometry of the text mesh is the one built from [config.textValue] with
    the loaded font, centred and not disposed, and the colour of its material
    is [config.textColor]. *)
Theorem text_follows_config
    (w : Window) (load : TextureLoad) (evs : list Event) (t : ref) :
  let st := run random getDelta (boot w load) evs in
  textMesh st = Some t ->
  exists m font mat,
    meshes st !! t = Some m /\ loadedFont st = Some font /\
    geometries st !! geometry m =
      Some (mkGeometry
              (TextGeometry
                 (if is_empty_string (trim (textValue (config st)))
                  then js "..." else textValue (config st))
                 (text_options font))
              true false) /\
    materials st !! material m = Some mat /\
    m_color mat = textColor (config st) /\ m_disposed mat = false.
Proof.
  intros st Ht.
  destruct (reachable_built w load evs t Ht) as (R & Hs & ->). fold st in R, Hs.
  generalize dependent st. intros st _ R Hs.
  destruct (se_text _ _ Hs) as (g & font & mat & Hm & Hf & Hg & Hmat & Hc).
  exists (Mesh_new g 0), font, mat. cbn [Mesh_new geometry material].
  repeat split; try assumption.
  pose proof (rn_kinds _ R) as Hk. rewrite Forall_lookup in Hk.
  now destruct (Hk 0 mat Hmat).
Qed.

(** X10. The colours of the donuts are never a mixture: in every state
    after the build, either every donut [k] has the rainbow colour [k % 7]
    it was created with, or all 100 donuts have the colour
    [config.donutColor]. *)
Theorem donuts_rainbow_or_picked
    (w : Window) (load : TextureLoad) (evs : list Event) (t : ref) :
  let st := run random getDelta (boot w load) evs in
  let colour k :=
    d ← donutMeshes st !! k; m ← meshes st !! d;
    m_color <$> materials st !! material m in
  textMesh st = Some t ->
  (forall k, k < 100 -> colour k = Some (nth (k mod 7) donutColors 0%N)) \/
  (forall k, k < 100 -> colour k = Some (donutColor (config st))).
Proof.
  intros st colour Ht.
  destruct (reachable_built w load evs t Ht) as (R & Hs & _). fold st in R, Hs.
  generalize dependent st. intros st colour _ R Hs.
  assert (Hc : forall k, k < donut_count ->
            colour k = m_color <$> materials st !! S k).
  { intros k Hk. unfold colour. rewrite (rn_donuts _ R), lookup_seq_lt by exact Hk.
    cbn [mbind option_bind Nat.add].
    destruct (se_donuts _ _ Hs k Hk) as (m & -> & [_ Hm _ _ _]).
    cbn [mbind option_bind]. now rewrite Hm. }
  destruct (se_colours _ _ Hs) as [Sc|Sc]; [left|right]; intros k Hk;
    rewrite (Hc k Hk); now apply Sc.
Qed.

(** X11. Editing the text does not leak: in every state after the build,
    however many edits, colour changes, resizes and frames came before,
    exactly 2 geometries and 101 materials are live, because each edit
    disposes the geometry it replaces. *)
Theorem edits_leak_nothing
    (w : Window) (load : TextureLoad) (evs : list Event) (t : ref) :
  let st := run random getDelta (boot w load) evs in
  textMesh st = Some t ->
  length (live_geometries st) = 2 /\ length (live_materials st) = 101 /\
  gpu_resources st = 103.
Proof.
  intros st Ht.
  destruct (reachable_built w load evs t Ht) as (R & Hs & _). fold st in R, Hs.
  generalize dependent st. intros st _ R Hs.
  assert (Hm : length (live_materials st) = 101).
  { unfold live_materials. rewrite filter_all; [exact (rn_materials _ R)|].
    eapply Forall_impl; [exact (rn_kinds _ R)|].
    intros m [_ Hd]. cbn beta. now rewrite Hd. }
  unfold gpu_resources. rewrite Hm, (se_live _ _ Hs). easy.
Qed.

(** X12. The scene can always be drawn: in every state of the page the
    children of the scene are distinct, the camera is among them, and every
    mesh among them has a geometry and a material that exist and have not
    been disposed. *)
Theorem scene_is_drawable
    (w : Window) (load : TextureLoad) (evs : list Event) :
  let st := run random getDelta (boot w load) evs in
  NoDup (scene_children st) /\ CameraObject ∈ scene_children st /\
  forall r, MeshObject r ∈ scene_children st ->
    exists m g mat,
      meshes st !! r = Some m /\
      geometries st !! geometry m = Some g /\ g_disposed g = false /\
      materials st !! material m = Some mat /\ m_disposed mat = false.
Proof.
  intros st.
  destruct (reachable_cases w load evs) as [(F & _ & _)|[R Hs]].
  - fold st in F. generalize dependent st. intros st F.
    rewrite (pr_scene _ (fr_pristine _ F)). split; [|split].
    + apply NoDup_singleton.
    + now left.
    + intros r Hr. apply list_elem_of_singleton in Hr. discriminate.
  - fold st in R, Hs. generalize dependent st. intros st R Hs.
    rewrite (rn_scene _ R). split; [|split].
    + apply NoDup_cons. split.
      * intros Hc. apply list_elem_of_fmap in Hc as (x & Hx & _). discriminate.
      * apply NoDup_fmap_2; [|apply NoDup_seq]. now intros x y [= ->].
    + now left.
    + intros r Hr. apply elem_of_cons in Hr as [Hr|Hr]; [discriminate|].
      apply list_elem_of_fmap in Hr as (x & [= <-] & Hx).
      apply elem_of_seq in Hx.
      pose proof (rn_kinds _ R) as Hk. rewrite Forall_lookup in Hk.
      destruct r as [|k].
      * destruct (se_text _ _ Hs) as (g & font & mat & Hm & _ & Hg & Hmat & _).
        eexists _, _, mat. split; [exact Hm|]. cbn [Mesh_new geometry material].
        split; [exact Hg|]. split; [reflexivity|]. split; [exact Hmat|].
        now destruct (Hk 0 mat Hmat).
      * assert (Hlt : k < donut_count) by lia.
        destruct (se_donuts _ _ Hs k Hlt) as (m & Hm & [Hg Hmat _ _ _]).
        cbn [initial_donut donut_of_draws geometry material] in Hg, Hmat.
        destruct (lookup_lt_is_Some_2 (materials st) (S k)) as [mat Hmat'].
        { rewrite (rn_materials _ R). lia. }
        exists m, torus, mat. split; [exact Hm|]. rewrite Hg, Hmat.
        split; [exact (rn_torus _ R)|]. split; [reflexivity|].
        split; [exact Hmat'|]. now destruct (Hk (S k) mat Hmat').
Qed.

(** X13. Frames and clock readings go together: in every state the number
    of frames drawn is the number of readings of the clock. Before the build
    no frame has been drawn and none is requested; after it at least one has
    been drawn and the next one is always requested, so the loop never
    stops. *)
Theorem one_frame_per_clock_reading
    (w : Window) (load : TextureLoad) (evs : list Event) :
  let st := run random getDelta (boot w load) evs in
  rendered_frames st = clock_calls st /\
  match textMesh st with
  | None => rendered_frames st = 0 /\ frame_requested st = false
  | Some _ => 0 < rendered_frames st /\ frame_requested st = true
  end.
Proof.
  intros st.
  destruct (reachable_cases w load evs) as [(F & Ht & _)|[R Hs]].
  - fold st in F, Ht. generalize dependent st. intros st F Ht.
    destruct F as [P Hr Hc]. rewrite Ht, Hc, (pr_frames _ P), (pr_frame _ P).
    easy.
  - fold st in R, Hs. generalize dependent st. intros st R Hs.
    rewrite (rn_text _ R), (se_loop _ _ Hs).
    destruct (se_frames _ _ Hs) as [-> Hpos]. easy.
Qed.

(** X14. As long as no text mesh exists (the font has not arrived yet, or
    it has failed), the panel and the frame callback are dead: an animation
    frame or a change of any panel control leaves the whole state as it is,
    and nothing has been created, drawn at random or timed. *)
Theorem unbuilt_page_is_inert
    (w : Window) (load : TextureLoad) (evs : list Event) (ev : Event) :
  let st := run random getDelta (boot w load) evs in
  textMesh st = None ->
  (meshes st = [] /\ geometries st = [] /\ materials st = [] /\
   donutMeshes st = [] /\ random_calls st = 0 /\ clock_calls st = 0) /\
  match ev with
  | FontLoaded _ | FontError _ | Resize _ => True
  | _ => dispatch random getDelta st ev = st
  end.
Proof.
  intros st Ht.
  destruct (reachable_cases w load evs) as [(F & _ & _)|[R _]].
  - fold st in F. generalize dependent st. intros st _ F.
    destruct F as [P Hr Hc]. split.
    + now rewrite (pr_meshes _ P), (pr_geometries _ P), (pr_materials _ P),
        (pr_donuts _ P).
    + destruct ev; try exact I; cbn [dispatch].
      * now rewrite (pr_frame _ P).
      * destruct (decide _) as [Hin|]; [|reflexivity].
        now apply pristine_no_folder in Hin.
      * destruct (decide _) as [Hin|]; [|reflexivity].
        now apply pristine_no_folder in Hin.
      * destruct (decide _) as [Hin|]; [|reflexivity].
        now apply pristine_no_folder in Hin.
  - fold st in R. rewrite (rn_text _ R) in Ht. discriminate.
Qed.

(** *** The window *)

Lemma fits_window_handleResize (st : State) : fits_window (handleResize st).
Proof. now split. Qed.

Lemma fits_window_same (st st' : State) :
  window_side st' = window_side st -> fits_window st -> fits_window st'.
Proof.
  unfold window_side. intros H [F1 F2 F3 F4 F5]. split_pairs H.
  split; congruence.
Qed.

Lemma window_side_animate (st : State) :
  window_side (animate getDelta st) = window_side st.
Proof.
  pose proof (animate_outside getDelta st) as H.
  generalize dependent (animate getDelta st). intros st' H.
  unfold outside_animate in H. split_pairs H. unfold window_side. congruence.
Qed.

Lemma window_side_built (font : Font) (st : State) :
  window_side (setupSceneContent random font st) = window_side st.
Proof.
  destruct (setupSceneContent_spec random font st) as [H _ _ _ _ _ _ _ _].
  generalize dependent (setupSceneContent random font st). intros st' H.
  unfold outside_builder in H. split_pairs H. unfold window_side. congruence.
Qed.

Lemma window_side_onTextColor (c : Color) (st : State) :
  window_side (onTextColor c st) = window_side st.
Proof.
  unfold onTextColor. destruct (textMesh st) as [text|]; [|reflexivity].
  now destruct (meshes st !! text).
Qed.

Lemma window_side_onTextValue (s : JSString) (st : State) :
  window_side (onTextValue s st) = window_side st.
Proof.
  unfold onTextValue.
  destruct (textMesh st) as [text|]; [|reflexivity].
  destruct (loadedFont st); [|reflexivity].
  destruct (meshes st !! text); [|reflexivity].
  now rewrite createTextGeometry_eq.
Qed.

Lemma window_side_onDonutColor (c : Color) (st : State) :
  window_side (onDonutColor c st) = window_side st.
Proof.
  unfold onDonutColor.
  now destruct (recolor_donuts_spec c (donutMeshes st) st) as (mats & -> & _).
Qed.

(** Every handler but [handleResize] leaves the window side alone; the
    font callback ends with [handleResize]. *)
Lemma fits_window_dispatch (st : State) (ev : Event) :
  fits_window st ->
  fits_window (dispatch random getDelta st ev) /\
  window (dispatch random getDelta st ev) =
  match ev with Resize w => w | _ => window st end.
Proof.
  intros F.
  assert (Hsame : forall st', window_side st' = window_side st ->
            fits_window st' /\ window st' = window st).
  { intros st' H. split; [now apply (fits_window_same st)|].
    unfold window_side in H. now split_pairs H. }
  destruct ev as [font'|error|w1| |c|s|c]; cbn [dispatch].
  - destruct (font_loading st); [|now split].
    split.
    + eapply fits_window_same; [apply window_side_animate|].
      apply fits_window_handleResize.
    + assert (Hw : forall s s', window_side s' = window_side s ->
                window s' = window s).
      { intros s s' H. unfold window_side in H. now split_pairs H. }
      rewrite (Hw _ _ (window_side_animate _)).
      assert (Hr : forall s, window (handleResize s) = window s)
        by reflexivity.
      rewrite Hr. now rewrite (Hw _ _ (window_side_built _ _)).
  - destruct (font_loading st); [now apply Hsame|now split].
  - split; [apply fits_window_handleResize|reflexivity].
  - destruct (frame_requested st); [|now split].
    apply Hsame. now rewrite window_side_animate.
  - destruct (decide _); [|now split].
    apply Hsame. now rewrite window_side_onTextColor.
  - destruct (decide _); [|now split].
    apply Hsame. now rewrite window_side_onTextValue.
  - destruct (decide _); [|now split].
    apply Hsame. now rewrite window_side_onDonutColor.
Qed.

(** X15. The camera and the renderer always fit the window: after any
    events, with [w'] the window of the latest resize (the window of the
    start when there was none), the sizes are those of [w'], the aspect of
    the camera is their quotient and its projection is up to date, the
    renderer has that size, and its pixel ratio is
    [min(w'.devicePixelRatio, 2)]. *)
Theorem renderer_follows_window
    (w : Window) (load : TextureLoad) (evs : list Event) :
  let st := run random getDelta (boot w load) evs in
  let w' := last_window w evs in
  window st = w' /\
  sizes st = mkSizes (innerWidth w') (innerHeight w') /\
  camera_aspect st = (innerWidth w' / innerHeight w')%float /\
  camera_projection st = camera_aspect st /\
  renderer_size st = (innerWidth w', innerHeight w') /\
  renderer_pixelRatio st = Num.Math_min (devicePixelRatio w') 2.
Proof.
  intros st w'.
  assert (H : fits_window st /\ window st = w').
  { subst st w'.
    assert (H0 : fits_window (boot w load) /\ window (boot w load) = w)
      by (split; [now split|reflexivity]).
    generalize dependent (boot w load). revert w.
    induction evs as [|ev evs IH]; intros w st0 [F Hw]; [now split|].
    cbn [run fold_left last_window].
    destruct (fits_window_dispatch st0 ev F) as [F' Hw'].
    specialize (IH (match ev with Resize w1 => w1 | _ => w end)
                   (dispatch random getDelta st0 ev)).
    unfold run in IH.
    destruct ev; try (apply IH; split; [exact F'|congruence]). }
  destruct H as [[F1 F2 F3 F4 F5] <-]. easy.
Qed.

(** *** The render loop *)

(** X16. What a tick does to a donut besides moving it: the rotation about
    x and about y each grow by [deltaTime * 0.5], the rotation about z, the
    scale, the geometry and the material stay. What is not a donut (the text
    mesh) is not touched, and neither are the scene, the list of donuts, the
    geometries, the materials and the configuration. *)
Theorem tick_turns_the_donuts
    (w : Window) (load : TextureLoad) (evs : list Event) (d : ref) (m : Mesh) :
  let st := run random getDelta (boot w load) evs in
  let deltaTime := getDelta (clock_calls st) in
  let st' := animate getDelta st in
  d ∈ donutMeshes st -> meshes st !! d = Some m ->
  (exists m',
     meshes st' !! d = Some m' /\
     rotation m' =
       mkVector3 (vx (rotation m) + deltaTime * 0.5)%float
                 (vy (rotation m) + deltaTime * 0.5)%float
                 (vz (rotation m)) /\
     scale m' = scale m /\ geometry m' = geometry m /\
     material m' = material m) /\
  (forall i, i ∉ donutMeshes st -> meshes st' !! i = meshes st !! i) /\
  clock_calls st' = S (clock_calls st) /\
  scene_children st' = scene_children st /\
  donutMeshes st' = donutMeshes st /\
  geometries st' = geometries st /\ materials st' = materials st /\
  config st' = config st.
Proof.
  intros st deltaTime st' Hd Hm.
  assert (R : running st) by (eapply phase_donut; [apply phase_reachable|exact Hd]).
  subst deltaTime st'.
  generalize dependent st. intros st Hd Hm R.
  destruct (animate_spec getDelta st (running_donuts_ready st R))
    as (Ho & _ & _ & Hc & _ & Hin & Hout).
  generalize dependent (animate getDelta st). intros st' Ho Hc Hin Hout.
  unfold outside_animate in Ho. split_pairs Ho.
  split; [|repeat split; try assumption; congruence].
  exists (snd (animate_donut (getDelta (clock_calls st)) m)).
  split; [now apply Hin|].
  unfold animate_donut. now destruct (userData_velocity m).
Qed.

(** One tick on a donut that has a velocity. *)
Lemma animate_donut_axis (deltaTime : float) (m : Mesh) (v : Vector3)
      (ax : Vector3 -> float) :
  In ax axes -> userData_velocity m = Some v ->
  let m' := snd (animate_donut deltaTime m) in
  exists v',
    userData_velocity m' = Some v' /\
    ax v' = bounce (ax (position m')) (ax v).
Proof.
  intros Hax Hv. rewrite (animate_donut_ok deltaTime m v Hv).
  cbn [snd userData_velocity position]. eexists. split; [reflexivity|].
  destruct Hax as [<-|[<-|[<-|[]]]]; reflexivity.
Qed.

(** X5. The bounce does not bring a donut back: when a donut is beyond the
    boundary of 10 on an axis after a tick and still beyond it after the next
    tick, the second tick undoes the reflection of the first, and the donut
    has again the velocity on that axis that carried it out. *)
Theorem two_ticks_outside_restore_velocity
    (w : Window) (load : TextureLoad) (evs : list Event) (d : ref) (m : Mesh)
    (ax : Vector3 -> float) :
  let st := run random getDelta (boot w load) evs in
  let st1 := animate getDelta st in
  let st2 := animate getDelta st1 in
  In ax axes -> d ∈ donutMeshes st -> meshes st !! d = Some m ->
  exists v m1 v1 m2 v2,
    userData_velocity m = Some v /\
    meshes st1 !! d = Some m1 /\ userData_velocity m1 = Some v1 /\
    meshes st2 !! d = Some m2 /\ userData_velocity m2 = Some v2 /\
    (Num.gt (Num.Math_abs (ax (position m1))) 10 = true ->
     Num.gt (Num.Math_abs (ax (position m2))) 10 = true ->
     ax v1 = (- ax v)%float /\ ax v2 = ax v).
Proof.
  intros st st1 st2 Hax Hd Hm.
  assert (R : running st) by (eapply phase_donut; [apply phase_reachable|exact Hd]).
  subst st1 st2.
  generalize dependent st. intros st Hd Hm R.
  pose proof (running_animate getDelta st R) as R1.
  destruct (animate_spec getDelta st (running_donuts_ready st R))
    as (Ho & _ & _ & _ & _ & Hin & _).
  generalize dependent (animate getDelta st). intros st1 R1 Ho Hin.
  destruct (animate_spec getDelta st1 (running_donuts_ready st1 R1))
    as (_ & _ & _ & _ & _ & Hin1 & _).
  generalize dependent (animate getDelta st1). intros st2 Hin1.
  unfold outside_animate in Ho. split_pairs Ho.
  assert (Hd1 : d ∈ donutMeshes st1) by congruence.
  rewrite (rn_donuts _ R) in Hd.
  destruct (rn_donutmesh _ R d Hd) as (m' & Hm' & _ & _ & [v Hv]).
  rewrite Hm in Hm'. injection Hm' as <-.
  destruct (animate_donut_axis (getDelta (clock_calls st)) m v ax Hax Hv)
    as (v1 & Hv1 & Hb1).
  specialize (Hin d m ltac:(now rewrite (rn_donuts _ R)) Hm).
  generalize dependent (snd (animate_donut (getDelta (clock_calls st)) m)).
  intros m1 Hm1 Hv1 Hb1.
  destruct (animate_donut_axis (getDelta (clock_calls st1)) m1 v1 ax Hax Hv1)
    as (v2 & Hv2 & Hb2).
  specialize (Hin1 d m1 Hd1 Hm1).
  generalize dependent (snd (animate_donut (getDelta (clock_calls st1)) m1)).
  intros m2 Hm2 Hv2 Hb2.
  exists v, m1, v1, m2, v2. repeat (split; [assumption|]).
  intros Hout1 Hout2.
  destruct (bounce_reflected (ax (position m1)) (ax v)) as [Hf1 _].
  destruct (bounce_reflected (ax (position m2)) (ax v1)) as [Hf2 _].
  rewrite Hb1, Hb2, (Hf2 Hout2), Hb1, (Hf1 Hout1).
  split; [reflexivity|apply float_opp_involutive].
Qed.

(** X17. Only a frame moves the donuts: once the content is built, no
    other event (a resize, a change of a colour or of the text, a late font
    callback) changes the list of donuts or anything of a donut mesh, its
    position, rotation, scale and velocity included. *)
Theorem only_a_frame_moves_the_donuts
    (w : Window) (load : TextureLoad) (evs : list Event) (ev : Event) (d : ref) :
  let st := run random getDelta (boot w load) evs in
  let st' := dispatch random getDelta st ev in
  ev <> AnimationFrame -> d ∈ donutMeshes st ->
  donutMeshes st' = donutMeshes st /\ meshes st' !! d = meshes st !! d.
Proof.
  intros st st' Hev Hd.
  assert (R : running st) by (eapply phase_donut; [apply phase_reachable|exact Hd]).
  subst st'. generalize dependent st. intros st Hd R.
  pose proof (rn_loading _ R) as Hl. pose proof (rn_text _ R) as Ht.
  destruct (rn_textmesh _ R) as (m0 & text & font0 & Hm0 & _).
  destruct (rn_font _ R) as [font Hfont].
  rewrite (rn_donuts _ R) in Hd. apply elem_of_seq in Hd.
  destruct ev as [font'|error|w1| |c|s|c].
  - cbn [dispatch]. now rewrite Hl.
  - cbn [dispatch]. now rewrite Hl.
  - cbn [dispatch].
    pose proof (handleResize_outside (set_window w1 st)) as Ho.
    generalize dependent (handleResize (set_window w1 st)). intros st' Ho.
    unfold outside_resize in Ho. split_pairs Ho.
    cbn [set_window donutMeshes meshes] in *. split; congruence.
  - congruence.
  - rewrite (dispatch_TextColorPicked c st R).
    now rewrite (onTextColor_eq c (set_textColor c st) 0 m0 Ht Hm0).
  - rewrite (dispatch_TextValueEdited s st R).
    rewrite (onTextValue_eq s (set_textValue s st) 0 font m0 Ht Hfont Hm0).
    cbn [set_meshes set_geometries set_textValue set_config donutMeshes meshes].
    split; [reflexivity|]. apply list_lookup_alter_ne. lia.
  - rewrite (dispatch_DonutColorPicked c st R). unfold onDonutColor.
    now destruct (recolor_donuts_spec c (donutMeshes (set_donutColor c st))
                                      (set_donutColor c st)) as (mats & -> & _).
Qed.

End Claims.

(** ** The sample session *)

Lemma animate_reflects_at_boundary_witness :
  exists m v m' v',
    meshes sample_running !! 1 = Some m /\
    userData_velocity m = Some v /\
    meshes (animate sample_delta sample_running) !! 1 = Some m' /\
    userData_velocity m' = Some v' /\
    Num.gt (Num.Math_abs (vy (position m'))) 10 = true /\
    vy v' = (- vy v)%float.
Proof.
  eexists.
  assert (Hm : meshes sample_running !! 1 = Some _) by (vm_compute; reflexivity).
  assert (Hd : 1 ∈ donutMeshes sample_running) by (vm_compute; left).
  match type of Hm with
  | _ = Some ?m =>
      pose proof (animate_reflects_at_boundary sample_random sample_delta
                    sample_window LoadThrows [FontLoaded sample_font] 1 m) as H
  end.
  cbv zeta in H.
  destruct (H Hd Hm) as (v & m' & v' & Hv & Hm' & Hp & Hv' & _ & [Hy _] & _).
  exists v, m', v'.
  assert (Hout : Num.gt (Num.Math_abs (vy (position m'))) 10 = true).
  { rewrite Hp. cbn [userData_velocity] in Hv. injection Hv as <-.
    vm_compute. reflexivity. }
  split; [exact Hm|]. split; [exact Hv|]. split; [exact Hm'|].
  split; [exact Hv'|]. split; [exact Hout|]. exact (Hy Hout).
Defined.

(** The font fails while the window is being resized; later events, a late
    font callback among them, change nothing. *)
Lemma font_failure_builds_nothing_witness :
  let st :=
    run sample_random sample_delta
        (dispatch sample_random sample_delta
           (run sample_random sample_delta (boot sample_window LoadThrows)
                [Resize (mkWindow 1024 768 1)])
           (FontError 404))
        [AnimationFrame; TextValueEdited (js "x"); FontLoaded sample_font;
         DonutColorPicked 0x00ff00%N; Resize sample_window] in
  meshes st = [] /\ scene_children st = [CameraObject] /\
  frame_requested st = false /\ alerts st = [AlertFontFailed].
Proof.
  pose proof (font_failure_builds_nothing sample_random sample_delta sample_window
                LoadThrows [Resize (mkWindow 1024 768 1)]
                [AnimationFrame; TextValueEdited (js "x"); FontLoaded sample_font;
                 DonutColorPicked 0x00ff00%N; Resize sample_window] 404) as H.
  cbv zeta in H |- *.
  assert (Hl : font_loading
                 (run sample_random sample_delta (boot sample_window LoadThrows)
                      [Resize (mkWindow 1024 768 1)]) = true)
    by (vm_compute; reflexivity).
  destruct (H Hl) as (_ & _ & Hm & _ & _ & Hs & Hf & _ & Ha).
  split; [exact Hm|]. split; [exact Hs|]. split; [exact Hf|exact Ha].
Defined.

(** The example of the specification: the global donut colour set to
    0x00ff00 is the colour of a donut's material afterwards, and the text
    colour set to it is the colour of the text material. *)
Lemma color_pickers_reach_their_materials_witness :
  exists mt md,
    meshes sample_running !! 0 = Some mt /\
    meshes sample_running !! 1 = Some md /\
    m_color <$> materials
      (dispatch sample_random sample_delta sample_running
                (DonutColorPicked 0x00ff00%N)) !! material md = Some 0x00ff00%N /\
    m_color <$> materials
      (dispatch sample_random sample_delta sample_running
                (TextColorPicked 0x00ff00%N)) !! material mt = Some 0x00ff00%N.
Proof.
  eexists.
  assert (Hmt : meshes sample_running !! 0 = Some _) by (vm_compute; reflexivity).
  assert (Ht : textMesh sample_running = Some 0) by (vm_compute; reflexivity).
  assert (Hd : 1 ∈ donutMeshes sample_running) by (vm_compute; left).
  match type of Hmt with
  | _ = Some ?m =>
      pose proof (color_pickers_reach_their_materials sample_random sample_delta
                    sample_window LoadThrows [FontLoaded sample_font]
                    0x00ff00%N 0 m) as H
  end.
  cbv zeta in H.
  destruct (H Ht Hmt) as [(Htext & _) (_ & Hdonuts & _)].
  destruct (Hdonuts 1 Hd) as (md & Hmd & _ & Hc).
  exists md. split; [exact Hmt|]. split; [exact Hmd|]. split; [exact Hc|exact Htext].
Defined.

Lemma one_text_object_edited_in_place_witness :
  text_objects sample_running = [MeshObject 0] /\
  text_objects
    (dispatch sample_random sample_delta sample_running (TextValueEdited []))
  = [MeshObject 0].
Proof.
  pose proof (one_text_object_edited_in_place sample_random sample_delta
                sample_window LoadThrows [FontLoaded sample_font] 0) as H.
  cbv zeta in H.
  assert (Ht : textMesh sample_running = Some 0) by (vm_compute; reflexivity).
  destruct (H Ht) as (Hone & m & old & font & _ & _ & _ & Hedit & _).
  split; [exact Hone|]. exact (proj1 (proj2 (Hedit []))).
Defined.


(** The fourth donut of the first build. *)
Lemma population_as_drawn_witness :
  exists donut,
    donutMeshes (setupSceneContent sample_random sample_font
                   (boot sample_window LoadThrows)) !! 3 = Some donut /\
    materials (setupSceneContent sample_random sample_font
                 (boot sample_window LoadThrows)) !! 4 =
      Some (mkMaterial MeshBasicMaterial 0x00ff00%N false).
Proof.
  pose proof (population_as_drawn sample_random sample_font
                (boot sample_window LoadThrows) 3) as H.
  cbv zeta in H.
  assert (Hk : 3 < 100) by lia.
  destruct (H Hk) as (donut & Hd & _ & Hm & _).
  exists donut. split; [exact Hd|exact Hm].
Defined.

Lemma donuts_keep_their_making_witness :
  exists d m,
    donutMeshes sample_edited !! 1 = Some d /\
    meshes sample_edited !! d = Some m /\
    scale m = scale (initial_donut sample_random 1).
Proof.
  pose proof (donuts_keep_their_making sample_random sample_delta
                sample_window LoadThrows sample_events 0 1) as H.
  cbv zeta in H.
  assert (Ht : textMesh sample_edited = Some 0) by (vm_compute; reflexivity).
  assert (Hk : 1 < 100) by lia.
  destruct (H Ht Hk) as (d & m & Hd & Hm & [_ _ Hs _ _]).
  exists d, m. split; [exact Hd|]. split; [exact Hm|exact Hs].
Defined.

Lemma text_mesh_stays_put_witness :
  exists m,
    meshes sample_edited !! 0 = Some m /\ position m = mkVector3 0 0 0.
Proof.
  pose proof (text_mesh_stays_put sample_random sample_delta
                sample_window LoadThrows sample_events 0) as H.
  cbv zeta in H.
  assert (Ht : textMesh sample_edited = Some 0) by (vm_compute; reflexivity).
  destruct (H Ht) as (m & Hm & Hp & _).
  exists m. split; [exact Hm|exact Hp].
Defined.

Lemma text_follows_config_witness :
  exists m mat,
    meshes sample_edited !! 0 = Some m /\
    materials sample_edited !! material m = Some mat /\
    m_color mat = textColor (config sample_edited).
Proof.
  pose proof (text_follows_config sample_random sample_delta
                sample_window LoadThrows sample_events 0) as H.
  cbv zeta in H.
  assert (Ht : textMesh sample_edited = Some 0) by (vm_compute; reflexivity).
  destruct (H Ht) as (m & font & mat & Hm & _ & _ & Hmat & Hc & _).
  exists m, mat. split; [exact Hm|]. split; [exact Hmat|exact Hc].
Defined.

Lemma donuts_rainbow_or_picked_witness :
  let colour :=
    d ← donutMeshes sample_edited !! 1; m ← meshes sample_edited !! d;
    m_color <$> materials sample_edited !! material m in
  colour = Some (nth (1 mod 7) donutColors 0%N) \/
  colour = Some (donutColor (config sample_edited)).
Proof.
  pose proof (donuts_rainbow_or_picked sample_random sample_delta
                sample_window LoadThrows sample_events 0) as H.
  cbv zeta in H |- *.
  assert (Ht : textMesh sample_edited = Some 0) by (vm_compute; reflexivity).
  assert (Hk : 1 < 100) by lia.
  destruct (H Ht) as [Hr|Hp]; [left; exact (Hr 1 Hk)|right; exact (Hp 1 Hk)].
Defined.

Lemma edits_leak_nothing_witness : gpu_resources sample_edited = 103.
Proof.
  pose proof (edits_leak_nothing sample_random sample_delta
                sample_window LoadThrows sample_events 0) as H.
  cbv zeta in H.
  assert (Ht : textMesh sample_edited = Some 0) by (vm_compute; reflexivity).
  exact (proj2 (proj2 (H Ht))).
Defined.

(** The font is still loading when the text of the panel is edited. *)
Lemma unbuilt_page_is_inert_witness :
  dispatch sample_random sample_delta
    (run sample_random sample_delta (boot sample_window LoadThrows)
         [Resize (mkWindow 1024 768 1)])
    (TextValueEdited (js "Hi"))
  = run sample_random sample_delta (boot sample_window LoadThrows)
        [Resize (mkWindow 1024 768 1)].
Proof.
  pose proof (unbuilt_page_is_inert sample_random sample_delta
                sample_window LoadThrows [Resize (mkWindow 1024 768 1)]
                (TextValueEdited (js "Hi"))) as H.
  cbv zeta in H.
  assert (Ht : textMesh
                 (run sample_random sample_delta
                      (boot sample_window LoadThrows)
                      [Resize (mkWindow 1024 768 1)]) = None)
    by (vm_compute; reflexivity).
  exact (proj2 (H Ht)).
Defined.

Lemma tick_turns_the_donuts_witness :
  exists m m',
    meshes sample_running !! 1 = Some m /\
    meshes (animate sample_delta sample_running) !! 1 = Some m' /\
    scale m' = scale m.
Proof.
  eexists.
  assert (Hm : meshes sample_running !! 1 = Some _) by (vm_compute; reflexivity).
  assert (Hd : 1 ∈ donutMeshes sample_running) by (vm_compute; left).
  match type of Hm with
  | _ = Some ?m =>
      pose proof (tick_turns_the_donuts sample_random sample_delta
                    sample_window LoadThrows [FontLoaded sample_font] 1 m) as H
  end.
  cbv zeta in H.
  destruct (H Hd Hm) as ((m' & Hm' & _ & Hs & _) & _).
  exists m'. split; [exact Hm|]. split; [exact Hm'|exact Hs].
Defined.

(** After the long frame donut 1 is far below the boundary on the y axis; it
    is still there after the next frame, and its velocity on that axis is
    then the one that carried it out. *)
Lemma two_ticks_outside_restore_velocity_witness :
  exists m v m1 m2 v2,
    meshes sample_running !! 1 = Some m /\
    userData_velocity m = Some v /\
    meshes (animate sample_delta sample_running) !! 1 = Some m1 /\
    Num.gt (Num.Math_abs (vy (position m1))) 10 = true /\
    meshes (animate sample_delta (animate sample_delta sample_running)) !! 1
      = Some m2 /\
    Num.gt (Num.Math_abs (vy (position m2))) 10 = true /\
    userData_velocity m2 = Some v2 /\ vy v2 = vy v.
Proof.
  eexists.
  assert (Hm : meshes sample_running !! 1 = Some _) by (vm_compute; reflexivity).
  assert (Hd : 1 ∈ donutMeshes sample_running) by (vm_compute; left).
  assert (Hax : In vy axes) by (right; left; reflexivity).
  match type of Hm with
  | _ = Some ?m =>
      pose proof (two_ticks_outside_restore_velocity sample_random sample_delta
                    sample_window LoadThrows [FontLoaded sample_font] 1 m vy)
        as H
  end.
  cbv zeta in H.
  destruct (H Hax Hd Hm) as (v & m1 & v1 & m2 & v2 & Hv & Hm1 & _ & Hm2 & Hv2 & Hback).
  assert (Hc1 : exists m1',
            meshes (animate sample_delta sample_running) !! 1 = Some m1' /\
            Num.gt (Num.Math_abs (vy (position m1'))) 10 = true)
    by (eexists; split; vm_compute; reflexivity).
  assert (Hc2 : exists m2',
            meshes (animate sample_delta (animate sample_delta sample_running))
              !! 1 = Some m2' /\
            Num.gt (Num.Math_abs (vy (position m2'))) 10 = true)
    by (eexists; split; vm_compute; reflexivity).
  destruct Hc1 as (m1' & Hm1' & Hout1). destruct Hc2 as (m2' & Hm2' & Hout2).
  assert (E1 : m1' = m1) by congruence. assert (E2 : m2' = m2) by congruence.
  rewrite E1 in Hout1. rewrite E2 in Hout2.
  exists v, m1, m2, v2.
  split; [exact Hm|]. split; [exact Hv|]. split; [exact Hm1|].
  split; [exact Hout1|]. split; [exact Hm2|]. split; [exact Hout2|].
  split; [exact Hv2|]. exact (proj2 (Hback Hout1 Hout2)).
Defined.

(** A resize between two frames leaves donut 1 where it is. *)
Lemma only_a_frame_moves_the_donuts_witness :
  meshes (dispatch sample_random sample_delta sample_running
                   (Resize (mkWindow 1024 768 1))) !! 1
  = meshes sample_running !! 1.
Proof.
  pose proof (only_a_frame_moves_the_donuts sample_random sample_delta
                sample_window LoadThrows [FontLoaded sample_font]
                (Resize (mkWindow 1024 768 1)) 1) as H.
  cbv zeta in H.
  assert (Hev : Resize (mkWindow 1024 768 1) <> AnimationFrame) by discriminate.
  assert (Hd : 1 ∈ donutMeshes sample_running) by (vm_compute; left).
  exact (proj2 (H Hev Hd)).
Defined.
